(** * Benchmark report generator ([plot_results.py]): model and properties

    The script loads a table of factoring trials with pandas, derives four
    grouped views from it, hands each view to matplotlib and prints a text
    summary.  This development embeds the script over a small model of the
    pandas operations it calls:

    - a [Series] is a typed column (int64, float64, bool, str, category); a
      [DataFrame] is an index plus an ordered list of labelled columns; the
      results file gives the six columns of a trial their dtypes, and a
      file without any data row gives six empty columns of dtype object;
    - a data frame is a mutable Python object: the frames bound to variables
      that the script writes to ([df], [success_by_n], [grouped],
      [success_df], [range_stats]) live in a store and are handled through
      references; [setitem], [set_columns] and [imul] update the store in
      place; frames that are only read are plain values;
    - drawing, file and console calls are recorded as a trace of [Event]s, a
      printed f-string as the list of its pieces;
    - numbers of dtype float64 are the primitive binary64 floats; [mean] and
      [std] are the textbook reductions over the non-missing values (sum
      over count, sample deviation with ddof = 1). *)

From Stdlib Require Import ZArith Floats Uint63 String Sorted.
From stdpp Require Import base list gmap.

#[local] Set Warnings "-inexact-float".

Local Open Scope string_scope.
Local Open Scope list_scope.
Local Open Scope Z_scope.

(** ** Exceptions and the result monad *)

Inductive error : Type :=
| KeyError (key : string)
| TypeError
| ValueError
| IndexError.

Inductive result (A : Type) : Type :=
| Ok (a : A)
| Raise (e : error).
Arguments Ok {A} a.
Arguments Raise {A} e.

#[global] Instance result_ret : MRet result := @Ok.
#[global] Instance result_bind : MBind result := fun A B f m =>
  match m with
  | Ok a => f a
  | Raise e => Raise e
  end.

Fixpoint mapR {A B : Type} (f : A -> result B) (l : list A) : result (list B) :=
  match l with
  | [] => Ok []
  | x :: l' => y ← f x; ys ← mapR f l'; Ok (y :: ys)
  end.

(** ** Floating point helpers *)

Definition float_of_nat (n : nat) : float :=
  PrimFloat.of_uint63 (Uint63.of_Z (Z.of_nat n)).

(** int64 to float64 (exact below 2^53 in magnitude). *)
Definition float_of_Z (z : Z) : float :=
  if z <? 0 then PrimFloat.opp (PrimFloat.of_uint63 (Uint63.of_Z (- z)))
  else PrimFloat.of_uint63 (Uint63.of_Z z).

Definition float_of_bool (b : bool) : float :=
  if b then 1%float else 0%float.

Definition nan : float := (0 / 0)%float.

(** ** pandas: series *)

Module Pandas.

(** Column labels.  After [agg] with a list of functions the columns carry
    two-level labels such as [('success', 'mean')]. *)
Inductive Label : Type :=
| L1 (name : string)
| L2 (top sub : string).

Definition label_eqb (a b : Label) : bool :=
  match a, b with
  | L1 x, L1 y => String.eqb x y
  | L2 x1 x2, L2 y1 y2 => String.eqb x1 y1 && String.eqb x2 y2
  | _, _ => false
  end.

Definition label_name (a : Label) : string :=
  match a with
  | L1 x => x
  | L2 x _ => x
  end.

Inductive Series : Type :=
| IntS (xs : list Z)                                     (* int64 *)
| FloatS (xs : list float)                               (* float64 *)
| BoolS (xs : list bool)                                 (* bool *)
| StrS (xs : list string)                                (* object (str) *)
| CatS (categories : list string) (codes : list (option nat)).
    (* category; the code [None] is the missing value NaN *)

Definition series_len (s : Series) : nat :=
  match s with
  | IntS xs => length xs
  | FloatS xs => length xs
  | BoolS xs => length xs
  | StrS xs => length xs
  | CatS _ cs => length cs
  end.

(** Selection of the positions where the mask is [True]. *)
Fixpoint mask_filter {A : Type} (m : list bool) (xs : list A) : list A :=
  match m, xs with
  | b :: m', x :: xs' => if b then x :: mask_filter m' xs' else mask_filter m' xs'
  | _, _ => []
  end.

Definition series_mask (m : list bool) (s : Series) : Series :=
  match s with
  | IntS xs => IntS (mask_filter m xs)
  | FloatS xs => FloatS (mask_filter m xs)
  | BoolS xs => BoolS (mask_filter m xs)
  | StrS xs => StrS (mask_filter m xs)
  | CatS cats cs => CatS cats (mask_filter m cs)
  end.

(** Numeric view of a column, as arithmetic takes it. *)
Definition to_floats (s : Series) : result (list float) :=
  match s with
  | IntS xs => Ok (map float_of_Z xs)
  | FloatS xs => Ok xs
  | BoolS xs => Ok (map float_of_bool xs)
  | StrS _ => Raise TypeError
  | CatS _ _ => Raise TypeError
  end.

(** Missing values of a float column are NaN, and the reductions skip them
    ([skipna=True]); integer and boolean columns hold no missing value. *)
Definition dropna (xs : list float) : list float :=
  List.filter (fun x => negb (PrimFloat.is_nan x)) xs.

Definition valid_floats (s : Series) : result (list float) :=
  match s with
  | FloatS xs => Ok (dropna xs)
  | _ => to_floats s
  end.

Definition fsum (xs : list float) : float :=
  fold_left PrimFloat.add xs 0%float.

(** [mean]: sum over count; the mean of no value is NaN. *)
Definition fmean (xs : list float) : float :=
  (fsum xs / float_of_nat (length xs))%float.

(** [std]: sample standard deviation (ddof = 1); NaN below two values. *)
Definition fstd (xs : list float) : float :=
  match xs with
  | [] | [_] => nan
  | _ =>
      let m := fmean xs in
      PrimFloat.sqrt
        (fsum (map (fun x => ((x - m) * (x - m))%float) xs)
         / float_of_nat (length xs - 1))%float
  end.

(** Reductions of a whole column. *)
Definition series_mean (s : Series) : result float :=
  xs ← valid_floats s; Ok (fmean xs).

Definition series_std (s : Series) : result float :=
  xs ← valid_floats s; Ok (fstd xs).

(** [count]: number of non-missing values. *)
Definition series_count (s : Series) : nat :=
  match s with
  | CatS _ cs => length (List.filter (fun c : option nat => match c with Some _ => true | None => false end) cs)
  | FloatS xs => length (dropna xs)
  | _ => series_len s
  end.

(** [sum] of a boolean column counts the [True]s; of an integer column it
    adds the values. *)
Definition series_sum (s : Series) : result Z :=
  match s with
  | BoolS xs => Ok (Z.of_nat (length (List.filter (fun b : bool => b) xs)))
  | IntS xs => Ok (foldr Z.add 0 xs)
  | _ => Raise TypeError
  end.

(** [s * k] and [s / k] for a Python int [k]: the product of an integer
    column stays integer, true division always gives floats. *)
Definition series_mul (s : Series) (k : Z) : result Series :=
  match s with
  | IntS xs => Ok (IntS (map (fun x => x * k) xs))
  | FloatS xs => Ok (FloatS (map (fun x => (x * float_of_Z k)%float) xs))
  | BoolS xs => Ok (IntS (map (fun b : bool => if b then k else 0) xs))
  | _ => Raise TypeError
  end.

Definition series_div (s : Series) (k : Z) : result Series :=
  xs ← to_floats s; Ok (FloatS (map (fun x => (x / float_of_Z k)%float) xs)).

(** [s == n] for an integer scalar and [s == label] for a string scalar;
    a missing category compares unequal. *)
Definition series_eq_int (s : Series) (n : Z) : result Series :=
  match s with
  | IntS xs => Ok (BoolS (map (fun x => x =? n) xs))
  | _ => Raise TypeError
  end.

Definition code_is (cats : list string) (label : string) (c : option nat) : bool :=
  match c with
  | Some i =>
      match cats !! i with
      | Some l => String.eqb l label
      | None => false
      end
  | None => false
  end.

Definition series_eq_str (s : Series) (label : string) : result Series :=
  match s with
  | StrS xs => Ok (BoolS (map (fun x => String.eqb x label) xs))
  | CatS cats cs => Ok (BoolS (map (code_is cats label) cs))
  | _ => Raise TypeError
  end.

(** ** pandas: [cut] *)

(** [numpy.searchsorted(bins, x, side='left')] on ascending [bins]: the
    number of leading edges strictly below [x]. *)
Fixpoint searchsorted_left (bins : list Z) (x : Z) : nat :=
  match bins with
  | [] => 0%nat
  | b :: bs => if b <? x then S (searchsorted_left bs x) else 0%nat
  end.

(** Right-closed intervals [(bins[i], bins[i+1]]]; a value at or below the
    first edge or above the last one gets the missing code. *)
Definition cut_code (bins : list Z) (x : Z) : option nat :=
  let i := searchsorted_left bins x in
  if (i =? 0)%nat || (i =? length bins)%nat then None else Some (i - 1)%nat.

Definition cut (s : Series) (bins : list Z) (labels : list string) : result Series :=
  match s with
  | IntS xs =>
      if (length labels =? length bins - 1)%nat
      then Ok (CatS labels (map (cut_code bins) xs))
      else Raise ValueError
  | _ => Raise TypeError
  end.

(** ** pandas: data frames *)

Record DataFrame : Type := mkDF {
  index_name : option string;
  index : Series;
  columns : list (Label * Series)
}.

Definition range_index (n : nat) : Series := IntS (map Z.of_nat (seq 0 n)).

(** [len(df)] *)
Definition len (df : DataFrame) : nat := series_len (index df).

Fixpoint lookup_col (l : Label) (cols : list (Label * Series)) : option Series :=
  match cols with
  | [] => None
  | (l', s) :: rest => if label_eqb l' l then Some s else lookup_col l rest
  end.

(** [df[l]] *)
Definition getitem (df : DataFrame) (l : Label) : result Series :=
  match lookup_col l (columns df) with
  | Some s => Ok s
  | None => Raise (KeyError (label_name l))
  end.

(** Columns after [df[l] = s]: an existing column is replaced where it
    stands, a new one is appended. *)
Fixpoint assign_col (l : Label) (s : Series) (cols : list (Label * Series))
  : list (Label * Series) :=
  match cols with
  | [] => [(l, s)]
  | (l', s') :: rest =>
      if label_eqb l' l then (l', s) :: rest else (l', s') :: assign_col l s rest
  end.

Definition with_column (df : DataFrame) (l : Label) (s : Series) : DataFrame :=
  mkDF (index_name df) (index df) (assign_col l s (columns df)).

(** [df[mask]] for a key that is a column.  A boolean mask selects rows: a
    new frame with the rows where it is [True].  An object column is not a
    mask (an empty one neither): its values are taken as column labels, and
    the new frame has these columns, all rows, and no column at all when the
    key is empty; a label that is no column raises [KeyError] (the first
    such label stands for the message, which lists them). *)
Definition getitem_mask (df : DataFrame) (mask : Series) : result DataFrame :=
  match mask with
  | BoolS m =>
      if (length m =? len df)%nat
      then Ok (mkDF (index_name df) (series_mask m (index df))
                 (map (fun c => (c.1, series_mask m c.2)) (columns df)))
      else Raise ValueError
  | StrS names =>
      cols ← mapR (fun name => s ← getitem df (L1 name); Ok (L1 name, s)) names;
      Ok (mkDF (index_name df) (index df) cols)
  | _ => Raise (KeyError "mask")
  end.

(** Scalars, as met in a row taken out of a frame. *)
Inductive Cell : Type :=
| IntC (z : Z)
| FloatC (x : float)
| BoolC (b : bool)
| StrC (s : string)
| NaC.

Definition cell_at (s : Series) (i : nat) : option Cell :=
  match s with
  | IntS xs => IntC <$> xs !! i
  | FloatS xs => FloatC <$> xs !! i
  | BoolS xs => BoolC <$> xs !! i
  | StrS xs => StrC <$> xs !! i
  | CatS cats cs =>
      c ← cs !! i;
      Some (match c with
            | Some k => match cats !! k with Some l => StrC l | None => NaC end
            | None => NaC
            end)
  end.

(** [df.iloc[i]]: the row at position [i], one cell per column. *)
Definition iloc (df : DataFrame) (i : nat) : result (list (Label * Cell)) :=
  if (i <? len df)%nat
  then mapR (fun c : Label * Series =>
               match cell_at c.2 i with
               | Some v => Ok (c.1, v)
               | None => Raise IndexError
               end) (columns df)
  else Raise IndexError.

Fixpoint row_get (row : list (Label * Cell)) (l : Label) : result Cell :=
  match row with
  | [] => Raise (KeyError (label_name l))
  | (l', v) :: rest => if label_eqb l' l then Ok v else row_get rest l
  end.

(** [int(x)] for a float: truncation toward zero; NaN and the infinities
    raise. *)
Definition int_of_float (x : float) : result Z :=
  match Prim2SF x with
  | S754_zero _ => Ok 0
  | S754_finite s m e =>
      let a := if 0 <=? e then Z.pos m * 2 ^ e else Z.pos m / 2 ^ (- e) in
      Ok (if s then - a else a)
  | S754_infinity _ => Raise ValueError
  | S754_nan => Raise ValueError
  end.

(** [int(v)] *)
Definition cell_int (v : Cell) : result Z :=
  match v with
  | IntC z => Ok z
  | FloatC x => int_of_float x
  | BoolC b => Ok (if b then 1 else 0)
  | NaC => Raise ValueError
  | StrC _ => Raise ValueError
  end.

Definition cell_float (v : Cell) : result float :=
  match v with
  | FloatC x => Ok x
  | IntC z => Ok (float_of_Z z)
  | BoolC b => Ok (float_of_bool b)
  | NaC => Ok nan
  | StrC _ => Raise TypeError
  end.

(** ** pandas: [groupby], [agg], [reset_index] *)

(** Group keys of an integer column: the distinct values in ascending order
    ([groupby] sorts its keys). *)
Fixpoint insert_key (k : Z) (ks : list Z) : list Z :=
  match ks with
  | [] => [k]
  | x :: rest =>
      if k <? x then k :: ks
      else if k =? x then ks
      else x :: insert_key k rest
  end.

Definition unique_sorted (ks : list Z) : list Z := foldr insert_key [] ks.

(** The same for the keys of an object column, in the order of strings. *)
Fixpoint insert_key_str (k : string) (ks : list string) : list string :=
  match ks with
  | [] => [k]
  | x :: rest =>
      if String.ltb k x then k :: ks
      else if String.eqb k x then ks
      else x :: insert_key_str k rest
  end.

Definition unique_sorted_str (ks : list string) : list string :=
  foldr insert_key_str [] ks.

Definition code_eqb (c : nat) (o : option nat) : bool :=
  match o with
  | Some i => (i =? c)%nat
  | None => false
  end.

(** The groups of a key column: the key of each group (the index of the
    aggregated frame) and, per group, the mask of its rows.  A categorical
    key yields its categories in their order; with [observed = false] every
    category is a group, with [observed = true] only those that occur.  Rows
    whose key is missing belong to no group. *)
Definition group_masks (observed : bool) (key : Series)
  : result (Series * list (list bool)) :=
  match key with
  | IntS ks =>
      let us := unique_sorted ks in
      Ok (IntS us, map (fun k => map (fun x => x =? k) ks) us)
  | StrS ks =>
      let us := unique_sorted_str ks in
      Ok (StrS us, map (fun k => map (fun x => String.eqb x k) ks) us)
  | CatS cats cs =>
      let present (c : nat) := negb observed || existsb (code_eqb c) cs in
      let gs := List.filter present (seq 0 (length cats)) in
      Ok (CatS cats (map Some gs), map (fun c => map (code_eqb c) cs) gs)
  | _ => Raise TypeError
  end.

Inductive AggFn : Type := Mean | Std | Count.

Definition agg_name (f : AggFn) : string :=
  match f with
  | Mean => "mean"
  | Std => "std"
  | Count => "count"
  end.

(** One aggregated column: the reduction of each group. *)
Definition agg_column (f : AggFn) (groups : list Series) : result Series :=
  match f with
  | Mean => xs ← mapR series_mean groups; Ok (FloatS xs)
  | Std => xs ← mapR series_std groups; Ok (FloatS xs)
  | Count => Ok (IntS (map (fun g => Z.of_nat (series_count g)) groups))
  end.

(** The value of an entry of the dictionary given to [agg]: one function
    name, or a list of them (which makes the labels two-level). *)
Inductive AggSpec : Type :=
| One (f : AggFn)
| Many (fs : list AggFn).

Definition agg_entry (df : DataFrame) (masks : list (list bool))
    (e : string * AggSpec) : result (list (Label * Series)) :=
  s ← getitem df (L1 e.1);
  let groups := map (fun m => series_mask m s) masks in
  match e.2 with
  | One f => col ← agg_column f groups; Ok [(L1 e.1, col)]
  | Many fs =>
      mapR (fun f => col ← agg_column f groups; Ok (L2 e.1 (agg_name f), col)) fs
  end.

(** [df.groupby(by_).agg(spec)] *)
Definition groupby_agg (observed : bool) (df : DataFrame) (by_ : string)
    (spec : list (string * AggSpec)) : result DataFrame :=
  key ← getitem df (L1 by_);
  g ← group_masks observed key;
  cols ← mapR (agg_entry df g.2) spec;
  Ok (mkDF (Some by_) g.1 (concat cols)).

Definition is_L2 (l : Label) : bool :=
  match l with
  | L2 _ _ => true
  | L1 _ => false
  end.

(** [df.reset_index()]: the index becomes the first column, under its
    name, and the rows are numbered afresh. *)
Definition reset_index (df : DataFrame) : DataFrame :=
  let name := default "index" (index_name df) in
  let l := if existsb (fun c : Label * Series => is_L2 c.1) (columns df)
           then L2 name "" else L1 name in
  mkDF None (range_index (len df)) ((l, index df) :: columns df).

(** Value of the frame after [df.columns = names]. *)
Definition rename_columns (df : DataFrame) (names : list string) : result DataFrame :=
  if (length names =? length (columns df))%nat
  then Ok (mkDF (index_name df) (index df)
             (zip_with (fun n (c : Label * Series) => (L1 n, c.2)) names (columns df)))
  else Raise ValueError.

(** [s.nunique()] and [s.unique()] (values in order of first appearance). *)
Fixpoint unique_str (seen xs : list string) : list string :=
  match xs with
  | [] => []
  | x :: rest =>
      if existsb (String.eqb x) seen then unique_str seen rest
      else x :: unique_str (x :: seen) rest
  end.

Definition series_unique (s : Series) : result (list string) :=
  match s with
  | StrS xs => Ok (unique_str [] xs)
  | _ => Raise TypeError
  end.

Definition series_nunique (s : Series) : result nat :=
  match s with
  | IntS xs => Ok (length (unique_sorted xs))
  | StrS xs => Ok (length (unique_str [] xs))
  | _ => Raise TypeError
  end.

End Pandas.

Import Pandas.
Coercion L1 : string >-> Label.

(** ** matplotlib and console: the trace of effects *)

Module Pyplot.

Inductive Num : Type :=
| IntN (z : Z)
| FloatN (x : float).

(** The pieces of an f-string: literal text and formatted fields.  A float
    field keeps its precision ([{x:.1f}] is [FmtFloat 1 x]); a field without
    a format prints the scalar as it is. *)
Inductive Piece : Type :=
| Lit (s : string)
| FmtInt (z : Z)
| FmtFloat (prec : nat) (x : float)
| FmtCell (v : Cell)
| FmtList (xs : list string).

Inductive Event : Type :=
| Mkdir (path : string)
| Figure (w h : Z)
| Errorbar (x y yerr : Series) (label : string)
| Axhline (y : Z) (label : string)
| Axvline (x : Z) (label : string)
| Scatter (x y c : Series)
| Colorbar (label : string)
| Bar (x height : Series)
| SetColor (bar : nat) (color : string)
| Text (x y : Num) (s : list Piece)
| Xlabel (s : string)
| Ylabel (s : string)
| Title (s : string)
| Legend
| Grid
| Ylim (lo hi : Z)
| Savefig (path : string)
| Print (line : list Piece).

End Pyplot.
Import Pyplot.

(** ** The store of data frames and the interpreter monad *)

Definition ref : Type := nat.

Record State : Type := mkState {
  heap : gmap nat DataFrame;
  trace : list Event
}.

Definition M (A : Type) : Type := State -> result (A * State).

#[global] Instance M_ret : MRet M := fun A a st => Ok (a, st).
#[global] Instance M_bind : MBind M := fun A B f m st =>
  match m st with
  | Ok (a, st') => f a st'
  | Raise e => Raise e
  end.

Definition lift {A : Type} (r : result A) : M A := fun st =>
  match r with
  | Ok a => Ok (a, st)
  | Raise e => Raise e
  end.

Definition emit (e : Event) : M unit := fun st =>
  Ok (tt, mkState (heap st) (trace st ++ [e])).

(** A new frame object. *)
Definition new (d : DataFrame) : M ref := fun st =>
  let l := fresh (dom (heap st)) in
  Ok (l, mkState (<[l := d]> (heap st)) (trace st)).

Definition deref (r : ref) : M DataFrame := fun st =>
  match heap st !! r with
  | Some d => Ok (d, st)
  | None => Raise ValueError
  end.

Definition update (r : ref) (d : DataFrame) : M unit := fun st =>
  Ok (tt, mkState (<[r := d]> (heap st)) (trace st)).

(** [df[l] = s], in place. *)
Definition setitem (r : ref) (l : Label) (s : Series) : M unit :=
  d ← deref r; update r (with_column d l s).

(** [df.columns = names], in place. *)
Definition set_columns (r : ref) (names : list string) : M unit :=
  d ← deref r; d' ← lift (rename_columns d names); update r d'.

(** [df[l] *= k], in place. *)
Definition imul (r : ref) (l : Label) (k : Z) : M unit :=
  d ← deref r; s ← lift (getitem d l); s' ← lift (series_mul s k); setitem r l s'.

(** [df[mask].copy()] and the like: the selected rows as a new object. *)
Definition copy (d : DataFrame) : M ref := new d.

Fixpoint for_each {A : Type} (l : list A) (body : A -> M unit) : M unit :=
  match l with
  | [] => mret tt
  | x :: l' => body x;; for_each l' body
  end.

(** ** The trial table *)

Record Trial : Type := mkTrial {
  N : Z;
  phi : Z;
  phi_divisors : Z;
  strategy : string;
  success : bool;
  time_ms : float
}.

Definition trial_columns (ts : list Trial) : list (Label * Series) :=
  [ (L1 "N", IntS (map N ts));
    (L1 "phi", IntS (map phi ts));
    (L1 "phi_divisors", IntS (map phi_divisors ts));
    (L1 "strategy", StrS (map strategy ts));
    (L1 "success", BoolS (map success ts));
    (L1 "time_ms", FloatS (map time_ms ts)) ].

(** The columns of a results file that has its header line and no data row:
    a column without any value gets the dtype object. *)
Definition header_columns : list (Label * Series) :=
  [ (L1 "N", StrS []);
    (L1 "phi", StrS []);
    (L1 "phi_divisors", StrS []);
    (L1 "strategy", StrS []);
    (L1 "success", StrS []);
    (L1 "time_ms", StrS []) ].

(** [pd.read_csv] on a file holding the trials [ts]: the dtypes of the
    columns are inferred from the values. *)
Definition read_csv (ts : list Trial) : DataFrame :=
  match ts with
  | [] => mkDF None (range_index 0) header_columns
  | _ :: _ => mkDF None (range_index (length ts)) (trial_columns ts)
  end.

(** ** The script *)

Section Script.

(** The default of [groupby]'s [observed] keyword, which the script leaves
    unset: [False] up to pandas 2, [True] from pandas 3 on. *)
Variable observed : bool.

(** [load_data()], for a results file holding the trials [csv]. *)
Definition load_data (csv : list Trial) : M ref := new (read_csv csv).

Definition plot_success_vs_n (df : ref) (output_dir : string) : M unit :=
  emit (Mkdir output_dir);;
  (* Group by N and calculate success rate *)
  d ← deref df;
  g ← lift (groupby_agg observed d "N" [("success", Many [Mean; Std; Count])]);
  success_by_n ← new (reset_index g);
  set_columns success_by_n ["N"; "success_rate"; "std"; "count"];;
  imul success_by_n "success_rate" 100;;
  imul success_by_n "std" 100;;
  emit (Figure 10 6);;
  s ← deref success_by_n;
  x ← lift (getitem s "N");
  y ← lift (getitem s "success_rate");
  yerr ← lift (getitem s "std");
  emit (Errorbar x y yerr "Smooth basis (middle-out)");;
  emit (Axhline 100 "100% success");;
  emit (Axvline 900 "Hard limit (~900)");;
  emit (Xlabel "N (number to factor)");;
  emit (Ylabel "Success Rate (%)");;
  emit (Title "Success Rate vs N: Smooth Basis Selection\n(85% noise, T₂=5ms, 200k shots/base)");;
  emit Legend;;
  emit Grid;;
  emit (Ylim (-5) 105);;
  emit (Savefig (output_dir ++ "/success_vs_n.png"));;
  emit (Print [Lit "Saved: "; Lit output_dir; Lit "/success_vs_n.png"]).

Definition plot_success_vs_phi_divisors (df : ref) (output_dir : string) : M unit :=
  emit (Mkdir output_dir);;
  (* Calculate success rate by phi_divisors *)
  d ← deref df;
  g ← lift (groupby_agg observed d "phi_divisors"
              [("success", One Mean); ("N", One Mean)]);
  grouped ← new (reset_index g);
  imul grouped "success" 100;;
  emit (Figure 10 6);;
  s ← deref grouped;
  x ← lift (getitem s "phi_divisors");
  y ← lift (getitem s "success");
  c ← lift (getitem s "N");
  emit (Scatter x y c);;
  emit (Colorbar "N (number size)");;
  emit (Xlabel "Number of divisors of φ(N)");;
  emit (Ylabel "Success Rate (%)");;
  emit (Title "Non-Monotonic Difficulty: φ(N) Structure Matters More Than Size");;
  emit Grid;;
  emit (Ylim (-5) 105);;
  emit (Text (FloatN 0.05) (FloatN 0.95) [Lit "Rich divisor structure\n→ easier factoring"]);;
  emit (Savefig (output_dir ++ "/success_vs_phi_divisors.png"));;
  emit (Print [Lit "Saved: "; Lit output_dir; Lit "/success_vs_phi_divisors.png"]).

Definition plot_time_vs_n (df : ref) (output_dir : string) : M unit :=
  emit (Mkdir output_dir);;
  (* Only successful trials *)
  d ← deref df;
  mask ← lift (getitem d "success");
  sel ← lift (getitem_mask d mask);
  success_df ← copy sel;
  sd ← deref success_df;
  t ← lift (getitem sd "time_ms");
  t_s ← lift (series_div t 1000);
  setitem success_df "time_s" t_s;;
  sd ← deref success_df;
  g ← lift (groupby_agg observed sd "N" [("time_s", Many [Mean; Std])]);
  grouped ← new (reset_index g);
  set_columns grouped ["N"; "mean_time"; "std_time"];;
  emit (Figure 10 6);;
  s ← deref grouped;
  x ← lift (getitem s "N");
  y ← lift (getitem s "mean_time");
  yerr ← lift (getitem s "std_time");
  emit (Errorbar x y yerr "Smooth basis");;
  emit (Xlabel "N (number to factor)");;
  emit (Ylabel "Time to Factor (seconds)");;
  emit (Title "Time to Factorization vs N");;
  emit Legend;;
  emit Grid;;
  emit (Savefig (output_dir ++ "/time_vs_n.png"));;
  emit (Print [Lit "Saved: "; Lit output_dir; Lit "/time_vs_n.png"]).

(** The range bins shared by the bar chart and the summary. *)
Definition bins : list Z := [0; 300; 500; 700; 900; 1200].
Definition labels : list string :=
  ["100-300"; "300-500"; "500-700"; "700-900"; "900-1200"].

(** The colour of a bar, from its rate in percent. *)
Definition bar_color (rate : float) : string :=
  if PrimFloat.eqb rate 100 then "green"
  else if PrimFloat.ltb 50 rate then "orange"
  else "red".

Definition plot_success_by_range (df : ref) (output_dir : string) : M unit :=
  emit (Mkdir output_dir);;
  (* Define ranges *)
  d ← deref df;
  n ← lift (getitem d "N");
  r ← lift (cut n bins labels);
  setitem df "range" r;;
  (* Calculate success rate per range *)
  d ← deref df;
  g ← lift (groupby_agg observed d "range" [("success", Many [Mean; Count])]);
  range_stats ← new (reset_index g);
  set_columns range_stats ["range"; "success_rate"; "count"];;
  imul range_stats "success_rate" 100;;
  emit (Figure 10 6);;
  s ← deref range_stats;
  x ← lift (getitem s "range");
  h ← lift (getitem s "success_rate");
  emit (Bar x h);;
  (* Color bars by success rate *)
  for_each (seq 0 (len s)) (fun i =>
    row ← lift (iloc s i);
    v ← lift (row_get row "success_rate");
    rate ← lift (cell_float v);
    emit (SetColor i (bar_color rate)));;
  emit (Xlabel "N Range");;
  emit (Ylabel "Success Rate (%)");;
  emit (Title "Success Rate by N Range");;
  emit (Ylim 0 105);;
  emit Grid;;
  (* Add count labels on bars *)
  for_each (seq 0 (len s)) (fun i =>
    row ← lift (iloc s i);
    v ← lift (row_get row "success_rate");
    rate ← lift (cell_float v);
    c ← lift (row_get row "count");
    count ← lift (cell_int c);
    emit (Text (IntN (Z.of_nat i)) (FloatN (rate + 3)%float) [Lit "n="; FmtInt count]));;
  emit (Savefig (output_dir ++ "/success_by_range.png"));;
  emit (Print [Lit "Saved: "; Lit output_dir; Lit "/success_by_range.png"]).

Fixpoint str_repeat (s : string) (n : nat) : string :=
  match n with
  | O => ""
  | S n' => s ++ str_repeat s n'
  end.

Definition generate_summary_stats (df : ref) : M unit :=
  emit (Print [Lit ("\n" ++ str_repeat "=" 60)]);;
  emit (Print [Lit "SUMMARY STATISTICS FOR PAPER"]);;
  emit (Print [Lit (str_repeat "=" 60)]);;
  d ← deref df;
  let total_trials := len d in
  sc ← lift (getitem d "success");
  total_success ← lift (series_sum sc);
  let overall_rate :=
    (float_of_Z total_success / float_of_nat total_trials * 100)%float in
  emit (Print [Lit "\nOverall:"]);;
  emit (Print [Lit "  Trials: "; FmtInt (Z.of_nat total_trials)]);;
  emit (Print [Lit "  Successes: "; FmtInt total_success]);;
  emit (Print [Lit "  Success rate: "; FmtFloat 1 overall_rate; Lit "%"]);;
  (* Success by N range *)
  n ← lift (getitem d "N");
  r ← lift (cut n bins labels);
  setitem df "range" r;;
  emit (Print [Lit "\nSuccess rate by range:"]);;
  for_each labels (fun label =>
    d ← deref df;
    rg ← lift (getitem d "range");
    mask ← lift (series_eq_str rg label);
    range_df ← lift (getitem_mask d mask);
    if (0 <? len range_df)%nat then
      sc ← lift (getitem range_df "success");
      m ← lift (series_mean sc);
      let rate := (m * 100)%float in
      let count := len range_df in
      successes ← lift (series_sum sc);
      emit (Print [Lit "  N ∈ "; Lit label; Lit ": "; FmtInt successes; Lit "/";
                   FmtInt (Z.of_nat count); Lit " ("; FmtFloat 0 rate; Lit "%)"])
    else mret tt);;
  (* Average time *)
  d ← deref df;
  mask ← lift (getitem d "success");
  success_df ← lift (getitem_mask d mask);
  t ← lift (getitem success_df "time_ms");
  m ← lift (series_mean t);
  let avg_time := (m / 1000)%float in
  emit (Print [Lit "\nAverage time to factor (successful): "; FmtFloat 1 avg_time;
               Lit "s"]);;
  (* Non-monotonic examples *)
  emit (Print [Lit "\nNon-monotonic difficulty examples:"]);;
  for_each [437; 551] (fun n =>
    d ← deref df;
    ns ← lift (getitem d "N");
    mask ← lift (series_eq_int ns n);
    n_df ← lift (getitem_mask d mask);
    if (0 <? len n_df)%nat then
      row ← lift (iloc n_df 0);
      phi ← lift (row_get row "phi");
      phi_div ← lift (row_get row "phi_divisors");
      sc ← lift (getitem n_df "success");
      m ← lift (series_mean sc);
      let rate := (m * 100)%float in
      emit (Print [Lit "  N="; FmtInt n; Lit ": φ="; FmtCell phi; Lit ", ";
                   FmtCell phi_div; Lit " divisors, "; FmtFloat 0 rate;
                   Lit "% success"])
    else mret tt).

(** [main()], reading a results file that holds the trials [csv]. *)
Definition main (csv : list Trial) : M unit :=
  emit (Print [Lit "Loading benchmark results..."]);;
  df ← load_data csv;
  d ← deref df;
  emit (Print [Lit "\nLoaded "; FmtInt (Z.of_nat (len d)); Lit " trials"]);;
  ns ← lift (getitem d "N");
  k ← lift (series_nunique ns);
  emit (Print [Lit "Testing "; FmtInt (Z.of_nat k); Lit " unique numbers"]);;
  st ← lift (getitem d "strategy");
  u ← lift (series_unique st);
  emit (Print [Lit "Strategies: "; FmtList u]);;
  emit (Print [Lit "\nGenerating plots..."]);;
  plot_success_vs_n df "plots";;
  plot_success_vs_phi_divisors df "plots";;
  plot_time_vs_n df "plots";;
  plot_success_by_range df "plots";;
  generate_summary_stats df;;
  emit (Print [Lit ("\n" ++ str_repeat "=" 60)]);;
  emit (Print [Lit "COMPLETE - Ready for paper"]);;
  emit (Print [Lit (str_repeat "=" 60)]);;
  emit (Print [Lit "\nNext steps:"]);;
  emit (Print [Lit "  1. Review plots/ directory"]);;
  emit (Print [Lit "  2. Write paper sections with these figures"]);;
  emit (Print [Lit "  3. Add random strategy comparison (when implemented)"]).

End Script.

(** ** Vocabulary of the statements *)

(** A frame with the six columns of the results file for the trials [ts],
    followed by whatever derived columns [extra] it already carries. *)
Definition trial_frame (idx : Series) (ts : list Trial)
    (extra : list (Label * Series)) : DataFrame :=
  mkDF None idx (trial_columns ts ++ extra).

(** The table as the functions of the script receive it. *)
Definition table (ts : list Trial) (extra : list (Label * Series)) : DataFrame :=
  trial_frame (range_index (length ts)) ts extra.

(** The rows of the group [N = k]. *)
Definition rows_of (k : Z) (ts : list Trial) : list Trial :=
  List.filter (fun t => N t =? k) ts.

Definition successful (ts : list Trial) : list Trial :=
  List.filter success ts.

(** Mean and standard deviation of [success] over some rows, in percent. *)
Definition success_rate (ts : list Trial) : float :=
  (fmean (map float_of_bool (map success ts)) * 100)%float.

Definition success_std (ts : list Trial) : float :=
  (fstd (map float_of_bool (map success ts)) * 100)%float.

(** Elapsed times of some rows, in seconds. *)
Definition seconds (ts : list Trial) : list float :=
  map (fun t => (time_ms t / 1000)%float) ts.

(** Sum of an integer column. *)
Definition total (counts : list Z) : Z := foldr Z.add 0 counts.

(** *** successRateByN: the frame [success_by_n] of [plot_success_vs_n] *)

Definition success_by_n_frame (ts : list Trial) : DataFrame :=
  let ks := unique_sorted (map N ts) in
  mkDF None (range_index (length ks))
    [ (L1 "N", IntS ks);
      (L1 "success_rate", FloatS (map (fun k => success_rate (rows_of k ts)) ks));
      (L1 "std", FloatS (map (fun k => success_std (rows_of k ts)) ks));
      (L1 "count", IntS (map (fun k => Z.of_nat (length (rows_of k ts))) ks)) ].

Definition success_vs_n_events (dir : string) (x y yerr : Series) : list Event :=
  [ Mkdir dir; Figure 10 6;
    Errorbar x y yerr "Smooth basis (middle-out)";
    Axhline 100 "100% success"; Axvline 900 "Hard limit (~900)";
    Xlabel "N (number to factor)"; Ylabel "Success Rate (%)";
    Title "Success Rate vs N: Smooth Basis Selection\n(85% noise, T₂=5ms, 200k shots/base)";
    Legend; Grid; Ylim (-5) 105;
    Savefig (dir ++ "/success_vs_n.png");
    Print [Lit "Saved: "; Lit dir; Lit "/success_vs_n.png"] ].

(** *** successRateByPhiDivisors: the frame [grouped] of
    [plot_success_vs_phi_divisors] *)

Definition divisor_rows (k : Z) (ts : list Trial) : list Trial :=
  List.filter (fun t => phi_divisors t =? k) ts.

Definition by_divisors_frame (ts : list Trial) : DataFrame :=
  let ks := unique_sorted (map phi_divisors ts) in
  mkDF None (range_index (length ks))
    [ (L1 "phi_divisors", IntS ks);
      (L1 "success", FloatS (map (fun k => success_rate (divisor_rows k ts)) ks));
      (L1 "N",
        FloatS (map (fun k => fmean (map float_of_Z (map N (divisor_rows k ts)))) ks)) ].

Definition success_vs_phi_events (dir : string) (x y c : Series) : list Event :=
  [ Mkdir dir; Figure 10 6; Scatter x y c; Colorbar "N (number size)";
    Xlabel "Number of divisors of φ(N)"; Ylabel "Success Rate (%)";
    Title "Non-Monotonic Difficulty: φ(N) Structure Matters More Than Size";
    Grid; Ylim (-5) 105;
    Text (FloatN 0.05) (FloatN 0.95) [Lit "Rich divisor structure\n→ easier factoring"];
    Savefig (dir ++ "/success_vs_phi_divisors.png");
    Print [Lit "Saved: "; Lit dir; Lit "/success_vs_phi_divisors.png"] ].

(** *** timeToFactor: the frames [success_df] and [grouped] of
    [plot_time_vs_n] *)

Definition mask_extra (m : list bool) (extra : list (Label * Series))
  : list (Label * Series) :=
  map (fun c : Label * Series => (c.1, series_mask m c.2)) extra.

Definition success_df_frame (ts : list Trial) (extra : list (Label * Series))
  : DataFrame :=
  let m := map success ts in
  trial_frame (series_mask m (range_index (length ts))) (successful ts)
    (assign_col (L1 "time_s") (FloatS (seconds (successful ts))) (mask_extra m extra)).

Definition time_by_n_frame (ts : list Trial) : DataFrame :=
  let ks := unique_sorted (map N (successful ts)) in
  mkDF None (range_index (length ks))
    [ (L1 "N", IntS ks);
      (L1 "mean_time",
        FloatS (map (fun k => fmean (dropna (seconds (rows_of k (successful ts))))) ks));
      (L1 "std_time",
        FloatS (map (fun k => fstd (dropna (seconds (rows_of k (successful ts))))) ks)) ].

Definition time_vs_n_events (dir : string) (x y yerr : Series) : list Event :=
  [ Mkdir dir; Figure 10 6;
    Errorbar x y yerr "Smooth basis";
    Xlabel "N (number to factor)"; Ylabel "Time to Factor (seconds)";
    Title "Time to Factorization vs N"; Legend; Grid;
    Savefig (dir ++ "/time_vs_n.png");
    Print [Lit "Saved: "; Lit dir; Lit "/time_vs_n.png"] ].

(** *** successByRange: the column [range] and the frame [range_stats] of
    [plot_success_by_range] *)

(** The bin of a trial: the code that [pd.cut] gives its [N]. *)
Definition bin_of (t : Trial) : option nat := cut_code bins (N t).

Definition in_bin (c : nat) (t : Trial) : bool := code_eqb c (bin_of t).

Definition bin_rows (c : nat) (ts : list Trial) : list Trial :=
  List.filter (in_bin c) ts.

Definition range_column (ts : list Trial) : Series :=
  CatS labels (map bin_of ts).

(** The table once the column [range] has been written to it. *)
Definition ranged (ts : list Trial) (extra : list (Label * Series)) : DataFrame :=
  table ts (assign_col (L1 "range") (range_column ts) extra).

(** The bins that get a row in [range_stats]. *)
Definition shown_bins (observed : bool) (ts : list Trial) : list nat :=
  List.filter (fun c => negb observed || existsb (in_bin c) ts)
    (seq 0 (length labels)).

Definition bin_rates (observed : bool) (ts : list Trial) : list float :=
  map (fun c => success_rate (bin_rows c ts)) (shown_bins observed ts).

Definition bin_counts (observed : bool) (ts : list Trial) : list Z :=
  map (fun c => Z.of_nat (length (bin_rows c ts))) (shown_bins observed ts).

Definition range_stats_frame (observed : bool) (ts : list Trial) : DataFrame :=
  let gs := shown_bins observed ts in
  mkDF None (range_index (length gs))
    [ (L1 "range", CatS labels (map Some gs));
      (L1 "success_rate", FloatS (bin_rates observed ts));
      (L1 "count", IntS (bin_counts observed ts)) ].

Definition bar_colors (rates : list float) : list Event :=
  imap (fun i rate => SetColor i (bar_color rate)) rates.

Definition bar_texts (rates : list float) (counts : list Z) : list Event :=
  imap (fun i rc => Text (IntN (Z.of_nat i)) (FloatN (rc.1 + 3)%float)
                      [Lit "n="; FmtInt rc.2])
       (zip rates counts).

Definition success_by_range_events (dir : string) (x : Series)
    (rates : list float) (counts : list Z) : list Event :=
  [ Mkdir dir; Figure 10 6; Bar x (FloatS rates) ]
  ++ bar_colors rates
  ++ [ Xlabel "N Range"; Ylabel "Success Rate (%)";
       Title "Success Rate by N Range"; Ylim 0 105; Grid ]
  ++ bar_texts rates counts
  ++ [ Savefig (dir ++ "/success_by_range.png");
       Print [Lit "Saved: "; Lit dir; Lit "/success_by_range.png"] ].

(** *** summary: the lines printed by [generate_summary_stats] *)

Definition overall_lines (ts : list Trial) : list Event :=
  let total_trials := length ts in
  let total_success := Z.of_nat (length (successful ts)) in
  [ Print [Lit ("\n" ++ str_repeat "=" 60)];
    Print [Lit "SUMMARY STATISTICS FOR PAPER"];
    Print [Lit (str_repeat "=" 60)];
    Print [Lit "\nOverall:"];
    Print [Lit "  Trials: "; FmtInt (Z.of_nat total_trials)];
    Print [Lit "  Successes: "; FmtInt total_success];
    Print [Lit "  Success rate: ";
           FmtFloat 1 (float_of_Z total_success / float_of_nat total_trials * 100)%float;
           Lit "%"] ].

(** The line of one range, printed when the range holds at least one row. *)
Definition range_line (label : string) (rows : list Trial) : list Event :=
  match rows with
  | [] => []
  | _ :: _ =>
      [ Print [Lit "  N ∈ "; Lit label; Lit ": ";
               FmtInt (Z.of_nat (length (successful rows))); Lit "/";
               FmtInt (Z.of_nat (length rows)); Lit " (";
               FmtFloat 0 (success_rate rows); Lit "%)"] ]
  end.

Definition range_lines (ts : list Trial) : list Event :=
  concat (imap (fun c label => range_line label (bin_rows c ts)) labels).

Definition time_line (ts : list Trial) : list Event :=
  [ Print [Lit "\nAverage time to factor (successful): ";
           FmtFloat 1 (fmean (dropna (map time_ms (successful ts))) / 1000)%float;
           Lit "s"] ].

(** The line of one example number: φ and the divisor count of the first
    matching row, the success rate over all matching rows. *)
Definition example_line (n : Z) (rows : list Trial) : list Event :=
  match rows with
  | [] => []
  | first :: _ =>
      [ Print [Lit "  N="; FmtInt n; Lit ": φ="; FmtCell (IntC (phi first));
               Lit ", "; FmtCell (IntC (phi_divisors first));
               Lit " divisors, "; FmtFloat 0 (success_rate rows);
               Lit "% success"] ]
  end.

Definition summary_events (ts : list Trial) : list Event :=
  overall_lines ts
  ++ [Print [Lit "\nSuccess rate by range:"]]
  ++ range_lines ts
  ++ time_line ts
  ++ [Print [Lit "\nNon-monotonic difficulty examples:"]]
  ++ example_line 437 (rows_of 437 ts)
  ++ example_line 551 (rows_of 551 ts).

(** An event is a printed example line about the number [n]. *)
Definition about_example (n : Z) (e : Event) : bool :=
  match e with
  | Print (Lit "  N=" :: FmtInt m :: _) => m =? n
  | _ => false
  end.

(** An event is a printed line of the per-range breakdown. *)
Definition is_range_line (e : Event) : bool :=
  match e with
  | Print (Lit "  N ∈ " :: _) => true
  | _ => false
  end.

(** Derived columns are as long as the table. *)
Definition aligned (ts : list Trial) (extra : list (Label * Series)) : Prop :=
  Forall (fun c : Label * Series => series_len c.2 = length ts) extra.

(** The trials whose [N] lies in the span (0, 1200] of the bins. *)
Definition in_span (t : Trial) : bool := (0 <? N t) && (N t <=? 1200).

(** The five ranges, as half-open intervals (lo, hi]. *)
Definition intervals : list (Z * Z) :=
  [(0, 300); (300, 500); (500, 700); (700, 900); (900, 1200)].

(** *** Sample tables *)

(** The two trials of the worked example: one success, one failure of
    [N = 400]. *)
Definition two_rows : list Trial :=
  [ mkTrial 400 368 10 "smooth" true 1000;
    mkTrial 400 368 10 "smooth" false 0 ].

(** Trials of the two example numbers with diverging φ columns, and trials
    outside the span of the bins. *)
Definition sample : list Trial :=
  [ mkTrial 437 396 18 "smooth" true 1500;
    mkTrial 1500 400 15 "smooth" true 2500;
    mkTrial 437 1 1 "smooth" false 0;
    mkTrial 551 504 24 "smooth" false 0;
    mkTrial 0 1 1 "smooth" false 0;
    mkTrial 551 2 2 "smooth" true 900;
    mkTrial 300 80 10 "smooth" true 700 ].

(** One success in the first range, two successes out of three in the
    second, one out of two in the third, no trial in the last two. *)
Definition three_colours : list Trial :=
  [ mkTrial 200 80 10 "smooth" true 500;
    mkTrial 400 160 12 "smooth" true 800;
    mkTrial 400 160 12 "smooth" false 0;
    mkTrial 400 160 12 "smooth" true 900;
    mkTrial 600 160 12 "smooth" true 1200;
    mkTrial 600 160 12 "smooth" false 0 ].

(** A store holding one table, at location 0. *)
Definition store_of (ts : list Trial) : gmap nat DataFrame :=
  {[ 0%nat := table ts [] ]}.

(** *** Further vocabulary *)

(** The rows whose [N] lies in the half-open interval (lo, hi]. *)
Definition in_interval (lo hi : Z) (t : Trial) : bool :=
  (lo <? N t) && (N t <=? hi).

(** An event is the summary's line of the range labelled [label]. *)
Definition labelled (label : string) (e : Event) : bool :=
  match e with
  | Print (Lit "  N ∈ " :: Lit l :: _) => String.eqb l label
  | _ => false
  end.






(** An operation gives the same output from two states: it returns from
    both and appends the same events to the trace. *)
Definition same_output (m : M unit) (st1 st2 : State) : Prop :=
  exists (st1' st2' : State) (out : list Event),
    m st1 = Ok (tt, st1') /\ m st2 = Ok (tt, st2') /\
    trace st1' = trace st1 ++ out /\ trace st2' = trace st2 ++ out.


Definition all_failed : list Trial :=
  [ mkTrial 437 396 18 "smooth" false 0;
    mkTrial 551 504 24 "random" false 0;
    mkTrial 437 396 18 "smooth" false 0 ].

(** * Properties *)

(** ** Lists and masks *)

Lemma mask_filter_map {A B : Type} (p : A -> bool) (f : A -> B) (l : list A) :
  mask_filter (map p l) (map f l) = map f (List.filter p l).
Proof.
  induction l as [|a l IH]; simpl; [reflexivity|].
  destruct (p a); simpl; congruence.
Qed.

Lemma mask_filter_length {A B : Type} (p : A -> bool) (l : list A) (xs : list B) :
  length xs = length l ->
  length (mask_filter (map p l) xs) = length (List.filter p l).
Proof.
  revert xs; induction l as [|a l IH]; intros [|x xs] Hlen; simpl in *;
    try discriminate; [reflexivity|].
  destruct (p a); simpl; rewrite IH by lia; reflexivity.
Qed.

Lemma mapR_map_ok {A B C : Type} (f : B -> result C) (h : A -> B) (g : A -> C)
    (l : list A) :
  (forall x, f (h x) = Ok (g x)) -> mapR f (map h l) = Ok (map g l).
Proof.
  intros Hf. induction l as [|a l IH]; simpl; [reflexivity|].
  rewrite Hf. simpl. rewrite IH. reflexivity.
Qed.

Lemma mapR_app {A B : Type} (f : A -> result B) (l1 l2 : list A) (ys1 ys2 : list B) :
  mapR f l1 = Ok ys1 -> mapR f l2 = Ok ys2 -> mapR f (l1 ++ l2) = Ok (ys1 ++ ys2).
Proof.
  revert ys1; induction l1 as [|x l1 IH]; simpl; intros ys1 H1 H2.
  - injection H1 as <-. exact H2.
  - destruct (f x) as [y|e]; simpl in *; [|discriminate].
    destruct (mapR f l1) as [ys|e]; simpl in *; [|discriminate].
    injection H1 as <-. rewrite (IH ys eq_refl H2). reflexivity.
Qed.

(** ** Group keys *)

Lemma insert_key_In (k x : Z) (ks : list Z) :
  In x (insert_key k ks) <-> x = k \/ In x ks.
Proof.
  induction ks as [|y ks IH]; simpl.
  - intuition congruence.
  - destruct (Z.ltb_spec k y); simpl; [intuition congruence|].
    destruct (Z.eqb_spec k y); simpl; [intuition congruence|].
    rewrite IH. tauto.
Qed.

Lemma unique_sorted_In (x : Z) (ks : list Z) :
  In x (unique_sorted ks) <-> In x ks.
Proof.
  induction ks as [|y ks IH]; simpl; [reflexivity|].
  rewrite insert_key_In, IH. intuition congruence.
Qed.

Lemma insert_key_sorted (k : Z) (ks : list Z) :
  StronglySorted Z.lt ks -> StronglySorted Z.lt (insert_key k ks).
Proof.
  induction 1 as [|y ks Hs IH Hall]; simpl.
  - repeat constructor.
  - destruct (Z.ltb_spec k y).
    + constructor; [constructor; assumption|].
      constructor; [assumption|].
      eapply Forall_impl; [exact Hall|]. intros; simpl in *; lia.
    + destruct (Z.eqb_spec k y); [constructor; assumption|].
      constructor; [assumption|].
      apply List.Forall_forall. intros z Hz.
      apply insert_key_In in Hz as [->|Hz]; [lia|].
      rewrite List.Forall_forall in Hall. auto.
Qed.

Lemma unique_sorted_sorted (ks : list Z) : StronglySorted Z.lt (unique_sorted ks).
Proof.
  induction ks; simpl; [constructor|]. apply insert_key_sorted; assumption.
Qed.

Lemma sorted_lt_NoDup (ks : list Z) : StronglySorted Z.lt ks -> NoDup ks.
Proof.
  induction 1 as [|y ks Hs IH Hall]; constructor; [|assumption].
  intros Hin%list_elem_of_In.
  rewrite List.Forall_forall in Hall. specialize (Hall _ Hin). lia.
Qed.

Lemma unique_sorted_NoDup (ks : list Z) : NoDup (unique_sorted ks).
Proof. apply sorted_lt_NoDup, unique_sorted_sorted. Qed.

(** ** Aggregation over groups

    Groups are given by a key-indexed family [p] of row predicates; the mask
    of group [k] is [map (p k) ts]. *)

Ltac rsimpl := cbv beta iota zeta delta [mbind mret result_bind result_ret].

Section Aggregation.
Context {A K : Type} (p : K -> A -> bool) (ks : list K) (ts : list A).

Lemma agg_mean_bool (f : A -> bool) :
  agg_column Mean (map (fun k => series_mask (map (p k) ts) (BoolS (map f ts))) ks) =
  Ok (FloatS (map (fun k => fmean (map float_of_bool (map f (List.filter (p k) ts)))) ks)).
Proof.
  unfold agg_column.
  rewrite (mapR_map_ok _ _
             (fun k => fmean (map float_of_bool (map f (List.filter (p k) ts))))).
  - reflexivity.
  - intros k. simpl. rewrite mask_filter_map. reflexivity.
Qed.

Lemma agg_std_bool (f : A -> bool) :
  agg_column Std (map (fun k => series_mask (map (p k) ts) (BoolS (map f ts))) ks) =
  Ok (FloatS (map (fun k => fstd (map float_of_bool (map f (List.filter (p k) ts)))) ks)).
Proof.
  unfold agg_column.
  rewrite (mapR_map_ok _ _
             (fun k => fstd (map float_of_bool (map f (List.filter (p k) ts))))).
  - reflexivity.
  - intros k. simpl. rewrite mask_filter_map. reflexivity.
Qed.

Lemma agg_count_bool (f : A -> bool) :
  agg_column Count (map (fun k => series_mask (map (p k) ts) (BoolS (map f ts))) ks) =
  Ok (IntS (map (fun k => Z.of_nat (length (List.filter (p k) ts))) ks)).
Proof.
  unfold agg_column. rewrite map_map. do 2 f_equal.
  apply map_ext. intros k. simpl. rewrite mask_filter_map, length_map. reflexivity.
Qed.

Lemma agg_mean_float (f : A -> float) :
  agg_column Mean (map (fun k => series_mask (map (p k) ts) (FloatS (map f ts))) ks) =
  Ok (FloatS (map (fun k => fmean (dropna (map f (List.filter (p k) ts)))) ks)).
Proof.
  unfold agg_column.
  rewrite (mapR_map_ok _ _ (fun k => fmean (dropna (map f (List.filter (p k) ts))))).
  - reflexivity.
  - intros k. simpl. rewrite mask_filter_map. reflexivity.
Qed.

Lemma agg_std_float (f : A -> float) :
  agg_column Std (map (fun k => series_mask (map (p k) ts) (FloatS (map f ts))) ks) =
  Ok (FloatS (map (fun k => fstd (dropna (map f (List.filter (p k) ts)))) ks)).
Proof.
  unfold agg_column.
  rewrite (mapR_map_ok _ _ (fun k => fstd (dropna (map f (List.filter (p k) ts))))).
  - reflexivity.
  - intros k. simpl. rewrite mask_filter_map. reflexivity.
Qed.

Lemma agg_mean_int (f : A -> Z) :
  agg_column Mean (map (fun k => series_mask (map (p k) ts) (IntS (map f ts))) ks) =
  Ok (FloatS (map (fun k => fmean (map float_of_Z (map f (List.filter (p k) ts)))) ks)).
Proof.
  unfold agg_column.
  rewrite (mapR_map_ok _ _
             (fun k => fmean (map float_of_Z (map f (List.filter (p k) ts))))).
  - reflexivity.
  - intros k. simpl. rewrite mask_filter_map. reflexivity.
Qed.

End Aggregation.

Lemma group_masks_int {A : Type} (observed : bool) (key : A -> Z) (ts : list A) :
  group_masks observed (IntS (map key ts)) =
  Ok (IntS (unique_sorted (map key ts)),
      map (fun k => map (fun t => key t =? k) ts) (unique_sorted (map key ts))).
Proof.
  unfold group_masks. do 2 f_equal.
  apply map_ext. intros k. apply map_map.
Qed.

Lemma lookup_col_assign (l : Label) (s : Series) (cols : list (Label * Series)) :
  lookup_col l (assign_col l s cols) = Some s.
Proof.
  assert (Hrefl : label_eqb l l = true).
  { destruct l; simpl; rewrite ?String.eqb_refl; reflexivity. }
  induction cols as [|[l' s'] cols IH]; simpl.
  - rewrite Hrefl. reflexivity.
  - destruct (label_eqb l' l) eqn:E; simpl; rewrite E; [reflexivity|exact IH].
Qed.

(** The grouped frame of [plot_success_vs_n], before [reset_index]. *)
Lemma groupby_N_success (observed : bool) idx ts extra :
  groupby_agg observed (trial_frame idx ts extra) "N"
    [("success", Many [Mean; Std; Count])] =
  let ks := unique_sorted (map N ts) in
  Ok (mkDF (Some "N") (IntS ks)
        [ (L2 "success" "mean",
            FloatS (map (fun k => fmean (map float_of_bool (map success (rows_of k ts)))) ks));
          (L2 "success" "std",
            FloatS (map (fun k => fstd (map float_of_bool (map success (rows_of k ts)))) ks));
          (L2 "success" "count",
            IntS (map (fun k => Z.of_nat (length (rows_of k ts))) ks)) ]).
Proof.
  unfold groupby_agg.
  change (getitem (trial_frame idx ts extra) (L1 "N")) with (Ok (IntS (map N ts))).
  rsimpl. rewrite group_masks_int.
  unfold mapR at 1, agg_entry. rsimpl. cbn [fst snd mapR].
  change (getitem (trial_frame idx ts extra) (L1 "success"))
    with (Ok (BoolS (map success ts))).
  rsimpl. rewrite !map_map.
  rewrite (agg_mean_bool (fun k t => N t =? k)).
  rewrite (agg_std_bool (fun k t => N t =? k)).
  rewrite (agg_count_bool (fun k t => N t =? k)).
  reflexivity.
Qed.

(** ** Running the interpreter *)

Section Run.
Context {B : Type} (h : gmap nat DataFrame) (t : list Event).

Lemma run_emit (f : unit -> M B) e :
  (emit e ≫= f) (mkState h t) = f tt (mkState h (t ++ [e])).
Proof. reflexivity. Qed.

Lemma run_deref (f : DataFrame -> M B) r d :
  h !! r = Some d -> (deref r ≫= f) (mkState h t) = f d (mkState h t).
Proof. intros H. cbv [mbind M_bind deref heap]. rewrite H. reflexivity. Qed.

Lemma run_new (f : ref -> M B) d :
  (new d ≫= f) (mkState h t) =
  f (fresh (dom h)) (mkState (<[fresh (dom h) := d]> h) t).
Proof. reflexivity. Qed.

Lemma run_setitem (f : unit -> M B) r l s d :
  h !! r = Some d ->
  (setitem r l s ≫= f) (mkState h t) =
  f tt (mkState (<[r := with_column d l s]> h) t).
Proof.
  intros H. cbv [mbind M_bind setitem deref update heap trace].
  rewrite H. reflexivity.
Qed.

Lemma run_set_columns (f : unit -> M B) r names d d' :
  h !! r = Some d -> rename_columns d names = Ok d' ->
  (set_columns r names ≫= f) (mkState h t) = f tt (mkState (<[r := d']> h) t).
Proof.
  intros H H'. cbv [mbind M_bind set_columns deref update lift heap trace].
  rewrite H, H'. reflexivity.
Qed.

Lemma run_imul (f : unit -> M B) r l k d s s' :
  h !! r = Some d -> getitem d l = Ok s -> series_mul s k = Ok s' ->
  (imul r l k ≫= f) (mkState h t) =
  f tt (mkState (<[r := with_column d l s']> h) t).
Proof.
  intros H H1 H2. cbv [mbind M_bind imul setitem deref update lift heap trace].
  rewrite H, H1, H2, H. reflexivity.
Qed.

End Run.

Lemma run_lift {A B : Type} (f : A -> M B) (st : State) (x : result A) (a : A) :
  x = Ok a -> (lift x ≫= f) st = f a st.
Proof. intros ->. reflexivity. Qed.

Lemma fresh_ne (h : gmap nat DataFrame) (r : nat) (d : DataFrame) :
  h !! r = Some d -> fresh (dom h) <> r.
Proof.
  intros H E. apply (is_fresh (dom h)). rewrite E. apply elem_of_dom. eauto.
Qed.

Lemma lookup_other (h : gmap nat DataFrame) (r : nat) (d d' : DataFrame) :
  h !! r = Some d -> <[fresh (dom h) := d']> h !! r = Some d.
Proof.
  intros H. rewrite lookup_insert_ne; [exact H|]. eapply fresh_ne; eassumption.
Qed.

(** Normal form of the frames built along a run. *)
Ltac frame_simpl :=
  cbv beta iota zeta delta
    [with_column reset_index assign_col label_eqb String.eqb Ascii.eqb Bool.eqb
     columns index index_name existsb is_L2 fst snd andb orb default from_option
     zip_with len series_len agg_name].

(** Effect of [plot_success_vs_n]: one new frame, the chart, and nothing
    else. *)
Lemma plot_success_vs_n_run (observed : bool) r dir h t ts extra :
  h !! r = Some (table ts extra) ->
  plot_success_vs_n observed r dir (mkState h t) =
  let s := success_by_n_frame ts in
  Ok (tt, mkState (<[fresh (dom h) := s]> h)
            (t ++ success_vs_n_events dir
                    (IntS (unique_sorted (map N ts)))
                    (FloatS (map (fun k => success_rate (rows_of k ts))
                               (unique_sorted (map N ts))))
                    (FloatS (map (fun k => success_std (rows_of k ts))
                               (unique_sorted (map N ts)))))).
Proof.
  intros Hr. unfold plot_success_vs_n.
  rewrite run_emit.
  erewrite run_deref by eassumption.
  erewrite run_lift by apply (groupby_N_success observed _ ts extra).
  rewrite run_new. cbv zeta. frame_simpl.
  erewrite run_set_columns by (apply lookup_insert_eq || reflexivity).
  rewrite insert_insert_eq. frame_simpl.
  erewrite run_imul by (apply lookup_insert_eq || reflexivity).
  rewrite insert_insert_eq. frame_simpl.
  erewrite run_imul by (apply lookup_insert_eq || reflexivity).
  rewrite insert_insert_eq. frame_simpl.
  rewrite run_emit.
  erewrite run_deref by apply lookup_insert_eq.
  do 3 (erewrite run_lift by reflexivity).
  rewrite !run_emit. unfold emit; cbn [heap trace].
  rewrite !map_map.
  repeat rewrite <- (app_assoc t). reflexivity.
Qed.

(** ** Row selection and derived columns on a trial frame *)

Lemma range_index_len (n : nat) : series_len (range_index n) = n.
Proof. simpl. rewrite length_map, length_seq. reflexivity. Qed.

Lemma getitem_mask_trials (p : Trial -> bool) idx ts extra :
  series_len idx = length ts ->
  getitem_mask (trial_frame idx ts extra) (BoolS (map p ts)) =
  Ok (trial_frame (series_mask (map p ts) idx) (List.filter p ts)
        (mask_extra (map p ts) extra)).
Proof.
  intros Hlen. unfold getitem_mask, len. cbn [index trial_frame].
  rewrite length_map, Hlen, Nat.eqb_refl.
  unfold trial_frame. cbn [index_name columns]. do 2 f_equal.
  rewrite map_app. unfold trial_columns. cbn [map fst snd series_mask app].
  rewrite !mask_filter_map. reflexivity.
Qed.

Lemma len_mask_table (p : Trial -> bool) ts extra :
  len (trial_frame (series_mask (map p ts) (range_index (length ts)))
         (List.filter p ts) extra) = length (List.filter p ts).
Proof.
  unfold len. cbn [index trial_frame range_index series_mask series_len].
  apply mask_filter_length. rewrite length_map, length_seq. reflexivity.
Qed.

Lemma getitem_time_s idx ts s extra :
  getitem (trial_frame idx ts (assign_col (L1 "time_s") s extra)) (L1 "time_s") = Ok s.
Proof.
  unfold getitem, trial_frame. cbn [columns trial_columns app lookup_col].
  cbn [label_eqb String.eqb Ascii.eqb Bool.eqb andb].
  rewrite lookup_col_assign. reflexivity.
Qed.

Lemma getitem_range idx ts s extra :
  getitem (trial_frame idx ts (assign_col (L1 "range") s extra)) (L1 "range") = Ok s.
Proof.
  unfold getitem, trial_frame. cbn [columns trial_columns app lookup_col].
  cbn [label_eqb String.eqb Ascii.eqb Bool.eqb andb].
  rewrite lookup_col_assign. reflexivity.
Qed.

Lemma series_div_time (ts : list Trial) :
  series_div (FloatS (map time_ms ts)) 1000 = Ok (FloatS (seconds ts)).
Proof.
  unfold series_div, seconds. cbn [to_floats]. rsimpl. rewrite map_map. reflexivity.
Qed.

(** The grouped frame of [plot_time_vs_n], before [reset_index]. *)
Lemma groupby_N_time (observed : bool) idx ts extra :
  groupby_agg observed
    (trial_frame idx ts (assign_col (L1 "time_s") (FloatS (seconds ts)) extra))
    "N" [("time_s", Many [Mean; Std])] =
  let ks := unique_sorted (map N ts) in
  Ok (mkDF (Some "N") (IntS ks)
        [ (L2 "time_s" "mean",
            FloatS (map (fun k => fmean (dropna (seconds (rows_of k ts)))) ks));
          (L2 "time_s" "std",
            FloatS (map (fun k => fstd (dropna (seconds (rows_of k ts)))) ks)) ]).
Proof.
  unfold groupby_agg.
  change (getitem (trial_frame idx ts ?e) (L1 "N")) with (Ok (IntS (map N ts))).
  rsimpl. rewrite group_masks_int.
  unfold mapR at 1, agg_entry. rsimpl. cbn [fst snd mapR].
  rewrite getitem_time_s.
  rsimpl. rewrite !map_map. unfold seconds.
  rewrite (agg_mean_float (fun k t => N t =? k)).
  rewrite (agg_std_float (fun k t => N t =? k)).
  reflexivity.
Qed.

(** Effect of [plot_time_vs_n]: two new frames ([success_df], [grouped]),
    the chart, and nothing else. *)
Lemma plot_time_vs_n_run (observed : bool) r dir h t ts extra :
  h !! r = Some (table ts extra) ->
  plot_time_vs_n observed r dir (mkState h t) =
  let l1 := fresh (dom h) in
  let h1 := <[l1 := success_df_frame ts extra]> h in
  let ks := unique_sorted (map N (successful ts)) in
  Ok (tt, mkState (<[fresh (dom h1) := time_by_n_frame ts]> h1)
            (t ++ time_vs_n_events dir (IntS ks)
                    (FloatS (map (fun k => fmean (dropna (seconds (rows_of k (successful ts)))))
                               ks))
                    (FloatS (map (fun k => fstd (dropna (seconds (rows_of k (successful ts)))))
                               ks)))).
Proof.
  intros Hr. unfold plot_time_vs_n, copy.
  rewrite run_emit.
  erewrite run_deref by eassumption.
  erewrite run_lift by reflexivity.
  erewrite run_lift
    by (apply (getitem_mask_trials success); apply range_index_len).
  rewrite run_new.
  erewrite run_deref by apply lookup_insert_eq.
  erewrite run_lift by reflexivity.
  erewrite run_lift by apply series_div_time.
  erewrite run_setitem by apply lookup_insert_eq.
  rewrite insert_insert_eq.
  change (with_column (trial_frame ?i ?s ?e) (L1 "time_s") ?c)
    with (trial_frame i s (assign_col (L1 "time_s") c e)).
  erewrite run_deref by apply lookup_insert_eq.
  erewrite run_lift by apply groupby_N_time.
  rewrite run_new. cbv zeta. frame_simpl.
  erewrite run_set_columns by (apply lookup_insert_eq || reflexivity).
  rewrite insert_insert_eq. frame_simpl.
  rewrite run_emit.
  erewrite run_deref by apply lookup_insert_eq.
  do 3 (erewrite run_lift by reflexivity).
  rewrite !run_emit. unfold emit; cbn [heap trace].
  repeat rewrite <- (app_assoc t). reflexivity.
Qed.

(** ** Loops *)

Lemma for_each_map {A C : Type} (g : C -> A) (l : list C) (body : A -> M unit) :
  for_each (map g l) body = for_each l (fun x => body (g x)).
Proof.
  induction l as [|x l IH]; simpl; [reflexivity|]. rewrite IH. reflexivity.
Qed.

(** A loop over the positions of a list whose body emits one event per
    position and leaves the store alone. *)
Lemma for_each_positions {X : Type} (h : gmap nat DataFrame) (l : list X) :
  forall (body : nat -> M unit) (g : nat -> X -> Event),
  (forall i x t, l !! i = Some x ->
     body i (mkState h t) = Ok (tt, mkState h (t ++ [g i x]))) ->
  forall t,
  for_each (seq 0 (length l)) body (mkState h t) = Ok (tt, mkState h (t ++ imap g l)).
Proof.
  induction l as [|x l IH]; intros body g Hbody t.
  - simpl. rewrite app_nil_r. reflexivity.
  - cbn [length seq for_each imap].
    change ((body 0%nat;; for_each (seq 1 (length l)) body) (mkState h t))
      with (match body 0%nat (mkState h t) with
            | Ok (_, st') => for_each (seq 1 (length l)) body st'
            | Raise e => Raise e
            end).
    rewrite (Hbody 0%nat x t eq_refl).
    rewrite <- seq_shift, for_each_map.
    rewrite (IH (fun i => body (S i)) (fun i => g (S i))).
    + rewrite <- app_assoc. reflexivity.
    + intros i y t' Hi. apply Hbody. exact Hi.
Qed.

Lemma run_for_each_positions {X B : Type} (f : unit -> M B) (h : gmap nat DataFrame)
    (l : list X) (n : nat) (body : nat -> M unit) (g : nat -> X -> Event) t :
  n = length l ->
  (forall i x t, l !! i = Some x ->
     body i (mkState h t) = Ok (tt, mkState h (t ++ [g i x]))) ->
  (for_each (seq 0 n) body ≫= f) (mkState h t) = f tt (mkState h (t ++ imap g l)).
Proof.
  intros -> Hbody.
  change ((for_each (seq 0 (length l)) body ≫= f) (mkState h t))
    with (match for_each (seq 0 (length l)) body (mkState h t) with
          | Ok (a, st') => f a st'
          | Raise e => Raise e
          end).
  rewrite (for_each_positions h l body g Hbody). reflexivity.
Qed.

Lemma lookup_map {A C : Type} (f : A -> C) (l : list A) (i : nat) :
  map f l !! i = f <$> (l !! i).
Proof.
  revert i; induction l as [|x l IH]; intros [|i]; simpl; auto.
Qed.

(** ** The range bins *)

Lemma existsb_map {A C : Type} (f : A -> C) (q : C -> bool) (l : list A) :
  existsb q (map f l) = existsb (fun x => q (f x)) l.
Proof. induction l as [|x l IH]; simpl; [reflexivity|]. rewrite IH. reflexivity. Qed.

Lemma cut_N (ts : list Trial) :
  cut (IntS (map N ts)) bins labels = Ok (range_column ts).
Proof.
  unfold cut, range_column. cbn [length bins labels Nat.sub Nat.eqb].
  rewrite map_map. reflexivity.
Qed.

Lemma group_masks_range (observed : bool) (ts : list Trial) :
  group_masks observed (range_column ts) =
  Ok (CatS labels (map Some (shown_bins observed ts)),
      map (fun c => map (in_bin c) ts) (shown_bins observed ts)).
Proof.
  unfold group_masks, range_column, shown_bins.
  assert (E : List.filter
                (fun c => negb observed || existsb (code_eqb c) (map bin_of ts))
                (seq 0 (length labels)) =
              List.filter (fun c => negb observed || existsb (in_bin c) ts)
                (seq 0 (length labels))).
  { apply List.filter_ext. intros c. rewrite existsb_map. reflexivity. }
  rewrite E. do 2 f_equal.
  apply map_ext. intros c. apply map_map.
Qed.

(** The grouped frame of [plot_success_by_range], before [reset_index]. *)
Lemma groupby_range_success (observed : bool) idx ts extra :
  groupby_agg observed
    (trial_frame idx ts (assign_col (L1 "range") (range_column ts) extra))
    "range" [("success", Many [Mean; Count])] =
  let gs := shown_bins observed ts in
  Ok (mkDF (Some "range") (CatS labels (map Some gs))
        [ (L2 "success" "mean",
            FloatS (map (fun c => fmean (map float_of_bool (map success (bin_rows c ts)))) gs));
          (L2 "success" "count",
            IntS (map (fun c => Z.of_nat (length (bin_rows c ts))) gs)) ]).
Proof.
  unfold groupby_agg.
  rewrite getitem_range.
  rsimpl. rewrite group_masks_range.
  unfold mapR at 1, agg_entry. rsimpl. cbn [fst snd mapR].
  change (getitem (trial_frame idx ts ?e) (L1 "success"))
    with (Ok (BoolS (map success ts))).
  rsimpl. rewrite !map_map.
  rewrite (agg_mean_bool in_bin).
  rewrite (agg_count_bool in_bin).
  reflexivity.
Qed.

(** A row of [range_stats], by position. *)
Lemma iloc_range_stats idx codes rates counts i (c : option nat) (r : float) (n : Z) :
  (i < series_len idx)%nat ->
  codes !! i = Some c -> rates !! i = Some r -> counts !! i = Some n ->
  exists v,
    iloc (mkDF None idx
            [ (L1 "range", CatS labels codes); (L1 "success_rate", FloatS rates);
              (L1 "count", IntS counts) ]) i =
    Ok [ (L1 "range", v); (L1 "success_rate", FloatC r); (L1 "count", IntC n) ].
Proof.
  intros Hi Hc Hr Hn. unfold iloc, len. cbn [index].
  apply Nat.ltb_lt in Hi. rewrite Hi.
  cbn [columns mapR fst snd cell_at]. rewrite Hc, Hr, Hn.
  eexists. reflexivity.
Qed.

(** Effect of [plot_success_by_range]: the column [range] is written to the
    table passed in, one new frame ([range_stats]) is made, and the bar
    chart is drawn. *)
Lemma plot_success_by_range_run (observed : bool) r dir h t ts extra :
  h !! r = Some (table ts extra) ->
  plot_success_by_range observed r dir (mkState h t) =
  let h1 := <[r := ranged ts extra]> h in
  Ok (tt, mkState (<[fresh (dom h1) := range_stats_frame observed ts]> h1)
            (t ++ success_by_range_events dir
                    (CatS labels (map Some (shown_bins observed ts)))
                    (bin_rates observed ts) (bin_counts observed ts))).
Proof.
  intros Hr. unfold plot_success_by_range.
  rewrite run_emit.
  erewrite run_deref by eassumption.
  erewrite run_lift by reflexivity.
  erewrite run_lift by apply cut_N.
  erewrite run_setitem by eassumption.
  change (with_column (table ts extra) (L1 "range") (range_column ts))
    with (ranged ts extra).
  erewrite run_deref by apply lookup_insert_eq.
  erewrite run_lift by apply groupby_range_success.
  rewrite run_new. cbv zeta. frame_simpl.
  erewrite run_set_columns by (apply lookup_insert_eq || reflexivity).
  rewrite insert_insert_eq. frame_simpl.
  erewrite run_imul by (apply lookup_insert_eq || reflexivity).
  rewrite insert_insert_eq. frame_simpl.
  rewrite run_emit.
  erewrite run_deref by apply lookup_insert_eq.
  do 2 (erewrite run_lift by reflexivity).
  rewrite run_emit.
  rewrite !map_map.
  change (map (fun c => (fmean (map float_of_bool (map success (bin_rows c ts)))
                         * float_of_Z 100)%float) (shown_bins observed ts))
    with (bin_rates observed ts).
  change (map (fun c => Z.of_nat (length (bin_rows c ts))) (shown_bins observed ts))
    with (bin_counts observed ts).
  assert (Hlr : length (bin_rates observed ts) = length (shown_bins observed ts))
    by apply length_map.
  assert (Hlc : length (bin_counts observed ts) = length (shown_bins observed ts))
    by apply length_map.
  erewrite (run_for_each_positions _ _ (bin_rates observed ts))
    with (g := fun i rate => SetColor i (bar_color rate)).
  2: { rewrite Hlr, length_map. apply range_index_len. }
  2: {
    intros i x t' Hx.
    assert (Hi : (i < length (shown_bins observed ts))%nat).
    { rewrite <- Hlr. eapply lookup_lt_Some. exact Hx. }
    destruct (lookup_lt_is_Some_2 (bin_counts observed ts) i) as [n Hn];
      [rewrite Hlc; exact Hi|].
    destruct (lookup_lt_is_Some_2 (map Some (shown_bins observed ts)) i) as [c Hc];
      [rewrite length_map; exact Hi|].
    destruct (iloc_range_stats
                (range_index (length (map Some (shown_bins observed ts))))
                (map Some (shown_bins observed ts)) (bin_rates observed ts)
                (bin_counts observed ts) i c x n) as [v Hrow]; try assumption.
    { rewrite range_index_len, length_map. exact Hi. }
    erewrite run_lift by exact Hrow.
    do 2 (erewrite run_lift by reflexivity).
    reflexivity. }
  rewrite !run_emit.
  erewrite (run_for_each_positions _ _
              (zip (bin_rates observed ts) (bin_counts observed ts)))
    with (g := fun i rc => Text (IntN (Z.of_nat i)) (FloatN (rc.1 + 3)%float)
                             [Lit "n="; FmtInt rc.2]).
  2: { rewrite length_zip, Hlr, Hlc, Nat.min_id, length_map. apply range_index_len. }
  2: {
    intros i [x n] t' Hx.
    apply lookup_zip_Some in Hx as [Hx Hn]. cbn [fst snd] in Hx, Hn.
    assert (Hi : (i < length (shown_bins observed ts))%nat).
    { rewrite <- Hlr. eapply lookup_lt_Some. exact Hx. }
    destruct (lookup_lt_is_Some_2 (map Some (shown_bins observed ts)) i) as [c Hc];
      [rewrite length_map; exact Hi|].
    destruct (iloc_range_stats
                (range_index (length (map Some (shown_bins observed ts))))
                (map Some (shown_bins observed ts)) (bin_rates observed ts)
                (bin_counts observed ts) i c x n) as [v Hrow]; try assumption.
    { rewrite range_index_len, length_map. exact Hi. }
    erewrite run_lift by exact Hrow.
    do 4 (erewrite run_lift by reflexivity).
    reflexivity. }
  rewrite !run_emit. unfold emit; cbn [heap trace].
  unfold success_by_range_events, bar_colors, bar_texts, range_stats_frame.
  cbv zeta. rewrite length_map, <- !app_assoc. reflexivity.
Qed.

(** ** The summary *)

Lemma len_table ts extra : len (table ts extra) = length ts.
Proof. apply range_index_len. Qed.

Lemma filter_id_map {A : Type} (f : A -> bool) (l : list A) :
  List.filter (fun b : bool => b) (map f l) = map f (List.filter f l).
Proof.
  induction l as [|x l IH]; simpl; [reflexivity|].
  destruct (f x) eqn:E; simpl; rewrite ?E, IH; reflexivity.
Qed.

Lemma series_sum_success (ts : list Trial) :
  series_sum (BoolS (map success ts)) = Ok (Z.of_nat (length (successful ts))).
Proof.
  unfold series_sum, successful. rewrite filter_id_map, length_map. reflexivity.
Qed.

Lemma labels_NoDup : NoDup labels.
Proof.
  unfold labels.
  repeat (constructor; [rewrite ?elem_of_cons, elem_of_nil; intuition discriminate|]).
  constructor.
Qed.

(** Comparing the column [range] with the label of bin [c] selects the rows
    of bin [c]. *)
Lemma code_is_label (c : nat) (label : string) (o : option nat) :
  labels !! c = Some label -> code_is labels label o = code_eqb c o.
Proof.
  intros Hc. destruct o as [i|]; [|reflexivity]. simpl.
  destruct (labels !! i) as [l|] eqn:Hi.
  - destruct (String.eqb_spec l label) as [->|Hne].
    + rewrite (NoDup_lookup _ _ _ _ labels_NoDup Hi Hc).
      symmetry. apply Nat.eqb_refl.
    + symmetry. apply Nat.eqb_neq. intros ->. congruence.
  - symmetry. apply Nat.eqb_neq. intros ->. congruence.
Qed.

Lemma series_eq_str_range (c : nat) (label : string) (ts : list Trial) :
  labels !! c = Some label ->
  series_eq_str (range_column ts) label = Ok (BoolS (map (in_bin c) ts)).
Proof.
  intros Hc. unfold series_eq_str, range_column. rewrite map_map.
  do 2 f_equal. apply map_ext. intros t. apply code_is_label. exact Hc.
Qed.

Lemma series_eq_int_N (n : Z) (ts : list Trial) :
  series_eq_int (IntS (map N ts)) n = Ok (BoolS (map (fun t => N t =? n) ts)).
Proof. unfold series_eq_int. rewrite map_map. reflexivity. Qed.

Lemma series_mask_len (p : Trial -> bool) (ts : list Trial) (s : Series) :
  series_len s = length ts ->
  series_len (series_mask (map p ts) s) = length (List.filter p ts).
Proof.
  destruct s; simpl; intros H; apply mask_filter_length; exact H.
Qed.

Lemma aligned_assign ts l s extra :
  series_len s = length ts -> aligned ts extra -> aligned ts (assign_col l s extra).
Proof.
  intros Hs. induction 1 as [|[l' s'] extra Hc Hall IH]; simpl.
  - repeat constructor. exact Hs.
  - destruct (label_eqb l' l); constructor; auto.
Qed.

Lemma aligned_mask (p : Trial -> bool) ts extra :
  aligned ts extra -> aligned (List.filter p ts) (mask_extra (map p ts) extra).
Proof.
  induction 1 as [|[l s] extra Hc Hall IH]; simpl; constructor; auto.
  simpl. apply series_mask_len. exact Hc.
Qed.

Lemma cell_at_first (s : Series) :
  (0 < series_len s)%nat -> exists v, cell_at s 0 = Some v.
Proof.
  destruct s as [[|x xs]|[|x xs]|[|x xs]|[|x xs]|cats [|x xs]]; simpl;
    intros H; try lia; eexists; reflexivity.
Qed.

(** The first row of a non-empty trial frame starts with the cells of the
    first trial. *)
Lemma iloc_first idx (first : Trial) rest extra :
  (0 < series_len idx)%nat ->
  aligned (first :: rest) extra ->
  exists more : list (Label * Cell),
    iloc (trial_frame idx (first :: rest) extra) 0 =
    Ok ([ (L1 "N", IntC (N first)); (L1 "phi", IntC (phi first));
          (L1 "phi_divisors", IntC (phi_divisors first));
          (L1 "strategy", StrC (strategy first));
          (L1 "success", BoolC (success first));
          (L1 "time_ms", FloatC (time_ms first)) ] ++ more).
Proof.
  intros Hidx Hall. unfold iloc, len. cbn [index trial_frame].
  apply Nat.ltb_lt in Hidx. rewrite Hidx. cbn [columns].
  assert (Hmore : exists more,
            mapR (fun c : Label * Series =>
                    match cell_at c.2 0 with
                    | Some v => Ok (c.1, v)
                    | None => Raise IndexError
                    end) extra = Ok more).
  { induction Hall as [|[l s] extra Hc Hall IH]; simpl.
    - eexists; reflexivity.
    - destruct (cell_at_first s) as [v Hv]; [simpl in Hc; rewrite Hc; simpl; lia|].
      destruct IH as [more IH]. rewrite Hv, IH. eexists; reflexivity. }
  destruct Hmore as [more Hmore]. exists more.
  apply mapR_app; [reflexivity|exact Hmore].
Qed.

(** A loop whose body appends some events per element and leaves the store
    alone. *)
Lemma for_each_events {X : Type} (h : gmap nat DataFrame) (l : list X) :
  forall (body : X -> M unit) (ev : nat -> X -> list Event),
  (forall i x t, l !! i = Some x ->
     body x (mkState h t) = Ok (tt, mkState h (t ++ ev i x))) ->
  forall t,
  for_each l body (mkState h t) = Ok (tt, mkState h (t ++ concat (imap ev l))).
Proof.
  induction l as [|x l IH]; intros body ev Hbody t.
  - simpl. rewrite app_nil_r. reflexivity.
  - cbn [for_each imap concat].
    change ((body x;; for_each l body) (mkState h t))
      with (match body x (mkState h t) with
            | Ok (_, st') => for_each l body st'
            | Raise e => Raise e
            end).
    rewrite (Hbody 0%nat x t eq_refl).
    rewrite (IH body (fun i => ev (S i))).
    + rewrite <- app_assoc. reflexivity.
    + intros i y t' Hi. apply (Hbody (S i)). exact Hi.
Qed.

Lemma run_for_each_events {X B : Type} (f : unit -> M B) (h : gmap nat DataFrame)
    (l : list X) (body : X -> M unit) (ev : nat -> X -> list Event) t :
  (forall i x t, l !! i = Some x ->
     body x (mkState h t) = Ok (tt, mkState h (t ++ ev i x))) ->
  (for_each l body ≫= f) (mkState h t) = f tt (mkState h (t ++ concat (imap ev l))).
Proof.
  intros Hbody.
  change ((for_each l body ≫= f) (mkState h t))
    with (match for_each l body (mkState h t) with
          | Ok (a, st') => f a st'
          | Raise e => Raise e
          end).
  rewrite (for_each_events h l body ev Hbody). reflexivity.
Qed.

Lemma run_ret (h : gmap nat DataFrame) (t : list Event) :
  (mret tt : M unit) (mkState h t) = Ok (tt, mkState h (t ++ [])).
Proof. rewrite app_nil_r. reflexivity. Qed.

(** Effect of [generate_summary_stats]: the column [range] is written to
    the table passed in and the summary is printed. *)
Lemma generate_summary_stats_run r h t ts extra :
  h !! r = Some (table ts extra) ->
  aligned ts extra ->
  generate_summary_stats r (mkState h t) =
  Ok (tt, mkState (<[r := ranged ts extra]> h) (t ++ summary_events ts)).
Proof.
  intros Hr Hext. unfold generate_summary_stats.
  rewrite !run_emit.
  erewrite run_deref by eassumption.
  erewrite run_lift by reflexivity.
  erewrite run_lift by apply series_sum_success.
  rewrite !run_emit.
  erewrite run_lift by reflexivity.
  erewrite run_lift by apply cut_N.
  erewrite run_setitem by eassumption.
  change (with_column (table ts extra) (L1 "range") (range_column ts))
    with (ranged ts extra).
  rewrite run_emit.
  set (h' := <[r := ranged ts extra]> h).
  assert (Hr' : h' !! r = Some (ranged ts extra)) by apply lookup_insert_eq.
  assert (Hext' : aligned ts (assign_col (L1 "range") (range_column ts) extra)).
  { apply aligned_assign; [|exact Hext]. simpl. apply length_map. }
  erewrite (run_for_each_events _ h' labels)
    with (ev := fun c label => range_line label (bin_rows c ts)).
  2: {
    intros c label t' Hc.
    erewrite run_deref by exact Hr'.
    erewrite run_lift by apply getitem_range.
    erewrite run_lift by (apply series_eq_str_range; exact Hc).
    erewrite run_lift
      by (apply (getitem_mask_trials (in_bin c)); apply range_index_len).
    rewrite len_mask_table. fold (bin_rows c ts).
    destruct (bin_rows c ts) as [|row rows] eqn:Hrows.
    - apply run_ret.
    - cbn [length Nat.ltb Nat.leb].
      erewrite run_lift by reflexivity.
      erewrite run_lift by reflexivity.
      erewrite run_lift by apply series_sum_success.
      reflexivity. }
  erewrite run_deref by exact Hr'.
  erewrite run_lift by reflexivity.
  erewrite run_lift
    by (apply (getitem_mask_trials success); apply range_index_len).
  erewrite run_lift by reflexivity.
  erewrite run_lift by reflexivity.
  rewrite !run_emit.
  erewrite (for_each_events h' [437; 551])
    with (ev := fun _ n => example_line n (rows_of n ts)).
  2: {
    intros i n t' _.
    erewrite run_deref by exact Hr'.
    erewrite run_lift by reflexivity.
    erewrite run_lift by apply series_eq_int_N.
    erewrite run_lift
      by (apply (getitem_mask_trials (fun t => N t =? n)); apply range_index_len).
    rewrite len_mask_table. fold (rows_of n ts).
    pose proof (aligned_mask (fun t => N t =? n) ts _ Hext') as Hal.
    fold (rows_of n ts) in Hal.
    destruct (rows_of n ts) as [|row rows] eqn:Hrows.
    - apply run_ret.
    - cbn [length Nat.ltb Nat.leb].
      destruct (iloc_first
                  (series_mask (map (fun t => N t =? n) ts) (range_index (length ts)))
                  row rows
                  (mask_extra (map (fun t => N t =? n) ts)
                     (assign_col (L1 "range") (range_column ts) extra)))
        as [more Hrow]; [|exact Hal|].
      { rewrite (series_mask_len _ ts) by apply range_index_len.
        fold (rows_of n ts). rewrite Hrows. simpl. lia. }
      erewrite run_lift by exact Hrow.
      do 4 (erewrite run_lift by reflexivity).
      reflexivity. }
  unfold summary_events, overall_lines, range_lines, time_line.
  rewrite len_table. cbn [imap concat]. rewrite !app_nil_r.
  rewrite <- !app_assoc. reflexivity.
Qed.

(** ** Counting rows per group *)

Lemma total_app (xs ys : list Z) : total (xs ++ ys) = total xs + total ys.
Proof. induction xs as [|x xs IH]; simpl; [reflexivity|]. rewrite IH. lia. Qed.

(** When every row belongs to exactly one of the groups [ks], the group
    sizes add up to the number of rows. *)
Lemma total_group_sizes {A K : Type} (p : K -> A -> bool) (ks : list K) (ts : list A) :
  (forall x, In x ts -> length (List.filter (fun k => p k x) ks) = 1%nat) ->
  total (map (fun k => Z.of_nat (length (List.filter (p k) ts))) ks) =
  Z.of_nat (length ts).
Proof.
  induction ts as [|x ts IH]; intros Hone.
  - clear Hone. unfold total. simpl.
    induction ks as [|k ks IHk]; simpl; [reflexivity|exact IHk].
  - assert (Hsplit : forall l : list K,
              total (map (fun k => Z.of_nat (length (List.filter (p k) (x :: ts)))) l) =
              Z.of_nat (length (List.filter (fun k => p k x) l)) +
              total (map (fun k => Z.of_nat (length (List.filter (p k) ts))) l)).
    { induction l as [|k l IHl]; [reflexivity|].
      change (Z.of_nat (length (List.filter (p k) (x :: ts))) +
              total (map (fun k => Z.of_nat (length (List.filter (p k) (x :: ts)))) l) =
              Z.of_nat (length (List.filter (fun k => p k x) (k :: l))) +
              (Z.of_nat (length (List.filter (p k) ts)) +
               total (map (fun k => Z.of_nat (length (List.filter (p k) ts))) l))).
      rewrite IHl. cbn [List.filter].
      destruct (p k x); cbn [length]; lia. }
    rewrite Hsplit, IH.
    + rewrite (Hone x) by (left; reflexivity). cbn [length]. lia.
    + intros y Hy. apply Hone. right. exact Hy.
Qed.

Lemma filter_unique {K : Type} (q : K -> bool) (a : K) (ks : list K) :
  NoDup ks -> In a ks -> (forall k, q k = true <-> k = a) ->
  length (List.filter q ks) = 1%nat.
Proof.
  intros Hnd Hin Hq.
  induction Hnd as [|k ks Hk Hnd IH]; [destruct Hin|].
  simpl. destruct (q k) eqn:E.
  - apply Hq in E as ->. simpl. f_equal.
    assert (Hnone : List.filter q ks = []); [|rewrite Hnone; reflexivity].
    clear IH Hin Hnd. induction ks as [|k ks IH]; [reflexivity|]. simpl.
    destruct (q k) eqn:E.
    + apply Hq in E as ->. exfalso. apply Hk. left.
    + apply IH. intros H. apply Hk. right. exact H.
  - apply IH. destruct Hin as [->|Hin]; [|exact Hin].
    assert (q a = true) by (apply Hq; reflexivity). congruence.
Qed.

(** The counts of [success_by_n] add up to the number of rows. *)
Lemma success_by_n_total (ts : list Trial) :
  total (map (fun k => Z.of_nat (length (rows_of k ts))) (unique_sorted (map N ts))) =
  Z.of_nat (length ts).
Proof.
  apply (total_group_sizes (fun k t => N t =? k)).
  intros x Hx. apply (filter_unique _ (N x)); [apply unique_sorted_NoDup| |].
  - apply unique_sorted_In, in_map, Hx.
  - intros k. rewrite Z.eqb_eq. intuition congruence.
Qed.

(** ** Claims about successRateByN *)

Lemma In_map_N (ts : list Trial) (k : Z) :
  In k (map N ts) <-> exists row, In row ts /\ N row = k.
Proof.
  rewrite in_map_iff. split; intros (row & H1 & H2); exists row; auto.
Qed.

(** C6.  On every table, [plot_success_vs_n] builds [success_by_n] with one
    row per distinct value of [N], in strictly ascending order of [N]; the
    rate of a row is the mean of [success] over the rows of its group times
    100, its count is the number of rows of the group. *)
Theorem C6_success_by_n_sorted_groups (observed : bool) (r : ref) (dir : string)
    (h : gmap nat DataFrame) (t : list Event) (ts : list Trial)
    (extra : list (Label * Series)) :
  h !! r = Some (table ts extra) ->
  exists (st' : State) (s : DataFrame) (ks : list Z),
    plot_success_vs_n observed r dir (mkState h t) = Ok (tt, st') /\
    heap st' !! fresh (dom h) = Some s /\
    getitem s "N" = Ok (IntS ks) /\
    getitem s "success_rate" =
      Ok (FloatS (map (fun k =>
                         (fmean (map float_of_bool
                                   (map success (rows_of k ts)))
                          * 100)%float) ks)) /\
    getitem s "std" =
      Ok (FloatS (map (fun k =>
                         (fstd (map float_of_bool
                                  (map success (rows_of k ts)))
                          * 100)%float) ks)) /\
    getitem s "count" =
      Ok (IntS (map (fun k =>
                       Z.of_nat (length (rows_of k ts))) ks)) /\
    len s = length ks /\
    StronglySorted Z.lt ks /\
    NoDup ks /\
    (forall k, In k ks <-> exists row, In row ts /\ N row = k).
Proof.
  intros Hr.
  exists (mkState (<[fresh (dom h) := success_by_n_frame ts]> h)
            (t ++ success_vs_n_events dir
                    (IntS (unique_sorted (map N ts)))
                    (FloatS (map (fun k => success_rate (rows_of k ts))
                               (unique_sorted (map N ts))))
                    (FloatS (map (fun k => success_std (rows_of k ts))
                               (unique_sorted (map N ts)))))),
         (success_by_n_frame ts), (unique_sorted (map N ts)).
  split; [exact (plot_success_vs_n_run observed r dir h t ts extra Hr)|].
  split; [apply lookup_insert_eq|].
  repeat (split; [reflexivity|]).
  split; [apply range_index_len|].
  split; [apply unique_sorted_sorted|].
  split; [apply unique_sorted_NoDup|].
  intros k. rewrite unique_sorted_In. apply In_map_N.
Qed.

Lemma C6_witness :
  store_of sample !! 0%nat = Some (table sample []) /\
  exists st',
    plot_success_vs_n false 0%nat "plots" (mkState (store_of sample) []) = Ok (tt, st').
Proof.
  assert (H : store_of sample !! 0%nat = Some (table sample [])) by reflexivity.
  split; [exact H|].
  destruct (C6_success_by_n_sorted_groups false 0%nat "plots" (store_of sample) []
              sample [] H) as (st' & s & ks & Hrun & _).
  exists st'. exact Hrun.
Defined.

(** ** The bins of [pd.cut] *)

(** Decision table of [cut_code] on the script's bin edges. *)
Lemma cut_code_bins (x : Z) :
  cut_code bins x =
  if x <=? 0 then None
  else if x <=? 300 then Some 0%nat
  else if x <=? 500 then Some 1%nat
  else if x <=? 700 then Some 2%nat
  else if x <=? 900 then Some 3%nat
  else if x <=? 1200 then Some 4%nat
  else None.
Proof.
  unfold cut_code, bins. cbn [searchsorted_left length].
  repeat match goal with
         | |- context [?a <? ?b] => destruct (Z.ltb_spec a b)
         | |- context [?a <=? ?b] => destruct (Z.leb_spec a b)
         end; try lia; reflexivity.
Qed.

Lemma cut_code_interval (x : Z) (c : nat) :
  cut_code bins x = Some c <->
  exists lo hi, intervals !! c = Some (lo, hi) /\ lo < x <= hi.
Proof.
  rewrite cut_code_bins. split.
  - repeat match goal with
           | |- context [?a <=? ?b] => destruct (Z.leb_spec a b)
           end; intros [= <-]; eexists _, _; (split; [reflexivity|lia]).
  - intros (lo & hi & Hc & Hx).
    do 5 (destruct c as [|c]; [injection Hc as <- <-;
      repeat match goal with
             | |- context [?a <=? ?b] => destruct (Z.leb_spec a b)
             end; (reflexivity || lia)|]).
    discriminate Hc.
Qed.

Lemma in_span_spec (t : Trial) : in_span t = true <-> 0 < N t <= 1200.
Proof. unfold in_span. rewrite andb_true_iff, Z.ltb_lt, Z.leb_le. reflexivity. Qed.

(** A trial in the span has a bin, and the bin is one of the five. *)
Lemma in_span_bin (t : Trial) :
  in_span t = true -> exists c, (c < length labels)%nat /\ bin_of t = Some c.
Proof.
  rewrite in_span_spec. intros Hx. unfold bin_of. rewrite cut_code_bins.
  repeat match goal with
         | |- context [?a <=? ?b] => destruct (Z.leb_spec a b)
         end; try lia; eexists; (split; [|reflexivity]); simpl; lia.
Qed.

(** A trial outside the span has no bin. *)
Lemma out_of_span_bin (t : Trial) : in_span t = false -> bin_of t = None.
Proof.
  intros Hx. unfold bin_of. rewrite cut_code_bins.
  assert (~ (0 < N t <= 1200)) by (rewrite <- in_span_spec; congruence).
  repeat match goal with
         | |- context [?a <=? ?b] => destruct (Z.leb_spec a b)
         end; try lia; reflexivity.
Qed.

Lemma in_bin_spec (c : nat) (t : Trial) : in_bin c t = true <-> bin_of t = Some c.
Proof.
  unfold in_bin, code_eqb. destruct (bin_of t) as [i|]; [|split; discriminate].
  rewrite Nat.eqb_eq. split; congruence.
Qed.

Lemma in_span_of_bin (c : nat) (t : Trial) : in_bin c t = true -> in_span t = true.
Proof.
  rewrite in_bin_spec. intros Hb.
  destruct (in_span t) eqn:E; [reflexivity|].
  rewrite (out_of_span_bin t E) in Hb. discriminate.
Qed.

Lemma shown_bins_NoDup (observed : bool) (ts : list Trial) :
  NoDup (shown_bins observed ts).
Proof.
  unfold shown_bins. apply NoDup_ListNoDup, List.NoDup_filter, List.seq_NoDup.
Qed.

Lemma shown_bins_In (observed : bool) (ts : list Trial) (c : nat) :
  In c (shown_bins observed ts) <->
  (c < length labels)%nat /\ (observed = false \/ exists t, In t ts /\ bin_of t = Some c).
Proof.
  unfold shown_bins. rewrite List.filter_In, List.in_seq, orb_true_iff,
    negb_true_iff, existsb_exists.
  setoid_rewrite in_bin_spec. intuition lia.
Qed.

(** The counts of [range_stats] add up to the number of rows when every row
    lies in the span of the bins. *)
Lemma range_stats_total (observed : bool) (ts : list Trial) :
  (forall t, In t ts -> in_span t = true) ->
  total (bin_counts observed ts) = Z.of_nat (length ts).
Proof.
  intros Hspan. unfold bin_counts, bin_rows.
  apply (total_group_sizes in_bin).
  intros x Hx. destruct (in_span_bin x (Hspan x Hx)) as (c & Hc & Hb).
  apply (filter_unique _ c); [apply shown_bins_NoDup| |].
  - apply shown_bins_In. split; [exact Hc|]. right. exists x. auto.
  - intros k. rewrite in_bin_spec, Hb. split; congruence.
Qed.

(** C7.  On a table whose [N] values all lie in (0, 1200], the counts of
    the range bins computed by [plot_success_by_range] add up to the number
    of rows of the table; the counts of the groups computed by
    [plot_success_vs_n] add up to it on every table. *)
Theorem C7_group_counts_add_up (observed : bool) (r : ref) (dir : string)
    (h : gmap nat DataFrame) (t : list Event) (ts : list Trial)
    (extra : list (Label * Series)) :
  h !! r = Some (table ts extra) ->
  ((forall row, In row ts -> 0 < N row <= 1200) ->
   exists (st' : State) (s : DataFrame) (counts : list Z),
     plot_success_by_range observed r dir (mkState h t) = Ok (tt, st') /\
     heap st' !! fresh (dom (<[r := ranged ts extra]> h)) = Some s /\
     getitem s "count" = Ok (IntS counts) /\
     (length counts <= 5)%nat /\
     total counts = Z.of_nat (len (table ts extra))) /\
  (exists (st' : State) (s : DataFrame) (counts : list Z),
     plot_success_vs_n observed r dir (mkState h t) = Ok (tt, st') /\
     heap st' !! fresh (dom h) = Some s /\
     getitem s "count" = Ok (IntS counts) /\
     total counts = Z.of_nat (len (table ts extra))).
Proof.
  intros Hr. split.
  - intros Hspan.
    eexists _, (range_stats_frame observed ts), (bin_counts observed ts).
    split; [exact (plot_success_by_range_run observed r dir h t ts extra Hr)|].
    split; [apply lookup_insert_eq|].
    split; [reflexivity|].
    split.
    + unfold bin_counts, shown_bins. rewrite length_map.
      etransitivity; [apply List.filter_length_le|]. rewrite length_seq. reflexivity.
    + rewrite len_table. apply range_stats_total.
      intros row Hrow. apply in_span_spec, Hspan, Hrow.
  - eexists _, (success_by_n_frame ts), _.
    split; [exact (plot_success_vs_n_run observed r dir h t ts extra Hr)|].
    split; [apply lookup_insert_eq|].
    split; [reflexivity|].
    rewrite len_table. apply success_by_n_total.
Qed.

Lemma C7_witness :
  store_of two_rows !! 0%nat = Some (table two_rows []) /\
  (forall row, In row two_rows -> 0 < N row <= 1200) /\
  exists st' s counts,
    plot_success_by_range true 0%nat "plots" (mkState (store_of two_rows) []) =
      Ok (tt, st') /\
    heap st' !! fresh (dom (<[0%nat := ranged two_rows []]> (store_of two_rows))) =
      Some s /\
    getitem s "count" = Ok (IntS counts) /\
    total counts = 2.
Proof.
  assert (H : store_of two_rows !! 0%nat = Some (table two_rows [])) by reflexivity.
  assert (Hspan : forall row, In row two_rows -> 0 < N row <= 1200).
  { intros row [<-|[<-|[]]]; simpl; lia. }
  split; [exact H|]. split; [exact Hspan|].
  destruct (C7_group_counts_add_up true 0%nat "plots" (store_of two_rows) []
              two_rows [] H) as [Hrange _].
  destruct (Hrange Hspan) as (st' & s & counts & Hrun & Hs & Hc & _ & Htot).
  exists st', s, counts. auto.
Defined.

(** ** Claims about timeToFactor *)

(** C9.  [plot_time_vs_n] leaves the table it is given as it was: the rows
    it selects are copied to a new frame before the column [time_s] is
    added, so every frame of the store before the call, the table included,
    is the same after it. *)
Theorem C9_time_plot_keeps_table (observed : bool) (r : ref) (dir : string)
    (h : gmap nat DataFrame) (t : list Event) (ts : list Trial)
    (extra : list (Label * Series)) :
  h !! r = Some (table ts extra) ->
  exists st' : State,
    plot_time_vs_n observed r dir (mkState h t) = Ok (tt, st') /\
    heap st' !! r = Some (table ts extra) /\
    (forall l d, h !! l = Some d -> heap st' !! l = Some d) /\
    (exists l sd, l <> r /\ h !! l = None /\ heap st' !! l = Some sd /\
                  is_Some (lookup_col (L1 "time_s") (columns sd))).
Proof.
  intros Hr. eexists.
  split; [exact (plot_time_vs_n_run observed r dir h t ts extra Hr)|].
  cbv zeta. cbn [heap].
  assert (Hkeep : forall l d, h !! l = Some d ->
            <[fresh (dom (<[fresh (dom h) := success_df_frame ts extra]> h))
                := time_by_n_frame ts]>
              (<[fresh (dom h) := success_df_frame ts extra]> h) !! l = Some d).
  { intros l d Hl.
    apply lookup_other. apply lookup_other. exact Hl. }
  split; [apply Hkeep; exact Hr|].
  split; [exact Hkeep|].
  exists (fresh (dom h)), (success_df_frame ts extra).
  split; [eapply fresh_ne; exact Hr|].
  split; [apply not_elem_of_dom, is_fresh|].
  split.
  - apply lookup_other. apply lookup_insert_eq.
  - unfold success_df_frame, trial_frame. cbn [columns trial_columns app lookup_col].
    cbn [label_eqb String.eqb Ascii.eqb Bool.eqb andb].
    rewrite lookup_col_assign. eexists; reflexivity.
Qed.

Lemma C9_witness :
  store_of sample !! 0%nat = Some (table sample []) /\
  exists st',
    plot_time_vs_n false 0%nat "plots" (mkState (store_of sample) []) = Ok (tt, st') /\
    heap st' !! 0%nat = Some (table sample []).
Proof.
  assert (H : store_of sample !! 0%nat = Some (table sample [])) by reflexivity.
  split; [exact H|].
  destruct (C9_time_plot_keeps_table false 0%nat "plots" (store_of sample) []
              sample [] H) as (st' & Hrun & Hsame & _).
  exists st'. auto.
Defined.

Lemma filter_filter_and {A : Type} (f g : A -> bool) (l : list A) :
  List.filter g (List.filter f l) = List.filter (fun x => f x && g x) l.
Proof.
  induction l as [|x l IH]; simpl; [reflexivity|].
  destruct (f x); simpl; [destruct (g x)|]; rewrite IH; reflexivity.
Qed.

Lemma successful_idem (ts : list Trial) : successful (successful ts) = successful ts.
Proof.
  unfold successful. rewrite filter_filter_and. apply List.filter_ext.
  intros x. destruct (success x); reflexivity.
Qed.

Lemma In_successful_N (ts : list Trial) (k : Z) :
  In k (map N (successful ts)) <->
  exists row, In row ts /\ success row = true /\ N row = k.
Proof.
  rewrite In_map_N. unfold successful. setoid_rewrite List.filter_In.
  split; intros (row & H); exists row; tauto.
Qed.

(** C5.  On every table, [plot_time_vs_n] keeps the rows with
    [success == True] only, converts their [time_ms] to seconds and then
    groups by [N]: the mean and the standard deviation of a group are taken
    over the (non-missing) times of the successful rows of that [N], a value
    of [N] without a successful row has no group, and two tables with the
    same successful rows give the same grouped frame and the same chart. *)
Theorem C5_time_over_successful_rows (observed : bool) (r : ref) (dir : string)
    (h : gmap nat DataFrame) (t : list Event) (ts : list Trial)
    (extra : list (Label * Series)) :
  h !! r = Some (table ts extra) ->
  exists (st' : State) (success_df grouped : DataFrame) (ks : list Z),
    plot_time_vs_n observed r dir (mkState h t) = Ok (tt, st') /\
    heap st' !! fresh (dom h) = Some success_df /\
    heap st' !! fresh (dom (<[fresh (dom h) := success_df]> h)) = Some grouped /\
    (* the rows kept *)
    len success_df = length (List.filter success ts) /\
    getitem success_df "success" = Ok (BoolS (map success (List.filter success ts))) /\
    getitem success_df "time_ms" = Ok (FloatS (map time_ms (List.filter success ts))) /\
    (* milliseconds to seconds, before grouping *)
    getitem success_df "time_s" =
      Ok (FloatS (map (fun row => (time_ms row / 1000)%float) (List.filter success ts))) /\
    (* the groups *)
    getitem grouped "N" = Ok (IntS ks) /\
    getitem grouped "mean_time" =
      Ok (FloatS (map (fun k =>
                         fmean (dropna
                                  (map (fun row => (time_ms row / 1000)%float)
                                     (List.filter (fun row => success row && (N row =? k))
                                        ts))))
                    ks)) /\
    getitem grouped "std_time" =
      Ok (FloatS (map (fun k =>
                         fstd (dropna
                                 (map (fun row => (time_ms row / 1000)%float)
                                    (List.filter (fun row => success row && (N row =? k))
                                       ts))))
                    ks)) /\
    StronglySorted Z.lt ks /\
    (forall k, In k ks <-> exists row, In row ts /\ success row = true /\ N row = k) /\
    (* rows that failed do not matter *)
    (forall ts2 extra2 h2 t2,
       h2 !! r = Some (table ts2 extra2) ->
       List.filter success ts2 = List.filter success ts ->
       exists st2 sd2,
         plot_time_vs_n observed r dir (mkState h2 t2) = Ok (tt, st2) /\
         heap st2 !! fresh (dom (<[fresh (dom h2) := sd2]> h2)) = Some grouped /\
         exists chart, trace st' = t ++ chart /\ trace st2 = t2 ++ chart).
Proof.
  intros Hr.
  eexists _, (success_df_frame ts extra), (time_by_n_frame ts),
    (unique_sorted (map N (successful ts))).
  split; [exact (plot_time_vs_n_run observed r dir h t ts extra Hr)|].
  cbv zeta. cbn [heap trace].
  split; [apply lookup_other, lookup_insert_eq|].
  split; [apply lookup_insert_eq|].
  split; [apply len_mask_table|].
  split; [reflexivity|]. split; [reflexivity|].
  split; [apply getitem_time_s|].
  split; [reflexivity|].
  assert (Hrows : forall k, rows_of k (successful ts) =
                            List.filter (fun row => success row && (N row =? k)) ts).
  { intros k. apply filter_filter_and. }
  split.
  { unfold time_by_n_frame. cbv zeta. unfold getitem. cbn.
    do 2 f_equal. apply map_ext. intros k. rewrite Hrows. reflexivity. }
  split.
  { unfold time_by_n_frame. cbv zeta. unfold getitem. cbn.
    do 2 f_equal. apply map_ext. intros k. rewrite Hrows. reflexivity. }
  split; [apply unique_sorted_sorted|].
  split; [intros k; rewrite unique_sorted_In; apply In_successful_N|].
  intros ts2 extra2 h2 t2 Hr2 Hsame.
  eexists _, (success_df_frame ts2 extra2).
  split; [exact (plot_time_vs_n_run observed r dir h2 t2 ts2 extra2 Hr2)|].
  cbv zeta. cbn [heap trace].
  unfold time_by_n_frame, successful. rewrite Hsame.
  split; [apply lookup_insert_eq|].
  eexists. split; reflexivity.
Qed.

Lemma C5_witness :
  store_of sample !! 0%nat = Some (table sample []) /\
  exists st' success_df,
    plot_time_vs_n false 0%nat "plots" (mkState (store_of sample) []) = Ok (tt, st') /\
    heap st' !! fresh (dom (store_of sample)) = Some success_df /\
    len success_df = 4%nat.
Proof.
  assert (H : store_of sample !! 0%nat = Some (table sample [])) by reflexivity.
  split; [exact H|].
  destruct (C5_time_over_successful_rows false 0%nat "plots" (store_of sample) []
              sample [] H)
    as (st' & sd & g & ks & Hrun & Hsd & _ & Hlen & _).
  exists st', sd. auto.
Defined.

(** C2.  For the table of the two trials [(N=400, success, 1000 ms)] and
    [(N=400, failure, 0 ms)], [plot_success_vs_n] gives [N = 400] the rate
    50.0 and the count 2, and [plot_time_vs_n] gives [N = 400] the mean time
    1.0 s, taken over the one successful row. *)
Theorem C2_two_row_example (observed : bool) (r : ref) (dir : string)
    (h : gmap nat DataFrame) (t : list Event) (extra : list (Label * Series)) :
  h !! r = Some (table two_rows extra) ->
  (exists (st' : State) (success_by_n : DataFrame),
     plot_success_vs_n observed r dir (mkState h t) = Ok (tt, st') /\
     heap st' !! fresh (dom h) = Some success_by_n /\
     getitem success_by_n "N" = Ok (IntS [400]) /\
     getitem success_by_n "success_rate" = Ok (FloatS [50%float]) /\
     getitem success_by_n "count" = Ok (IntS [2])) /\
  (exists (st' : State) (success_df grouped : DataFrame),
     plot_time_vs_n observed r dir (mkState h t) = Ok (tt, st') /\
     heap st' !! fresh (dom h) = Some success_df /\
     heap st' !! fresh (dom (<[fresh (dom h) := success_df]> h)) = Some grouped /\
     len success_df = 1%nat /\
     getitem success_df "success" = Ok (BoolS [true]) /\
     getitem success_df "time_ms" = Ok (FloatS [1000%float]) /\
     getitem grouped "N" = Ok (IntS [400]) /\
     getitem grouped "mean_time" = Ok (FloatS [1%float])).
Proof.
  intros Hr. split.
  - eexists _, (success_by_n_frame two_rows).
    split; [exact (plot_success_vs_n_run observed r dir h t two_rows extra Hr)|].
    split; [apply lookup_insert_eq|].
    repeat split; vm_compute; reflexivity.
  - eexists _, (success_df_frame two_rows extra), (time_by_n_frame two_rows).
    split; [exact (plot_time_vs_n_run observed r dir h t two_rows extra Hr)|].
    cbv zeta. cbn [heap].
    split; [apply lookup_other, lookup_insert_eq|].
    split; [apply lookup_insert_eq|].
    repeat split; vm_compute; reflexivity.
Qed.

Lemma C2_witness :
  store_of two_rows !! 0%nat = Some (table two_rows []) /\
  exists st' success_by_n,
    plot_success_vs_n false 0%nat "plots" (mkState (store_of two_rows) []) =
      Ok (tt, st') /\
    heap st' !! fresh (dom (store_of two_rows)) = Some success_by_n /\
    getitem success_by_n "success_rate" = Ok (FloatS [50%float]).
Proof.
  assert (H : store_of two_rows !! 0%nat = Some (table two_rows [])) by reflexivity.
  split; [exact H|].
  destruct (C2_two_row_example false 0%nat "plots" (store_of two_rows) [] [] H)
    as [(st' & s & Hrun & Hs & _ & Hrate & _) _].
  exists st', s. auto.
Defined.

(** ** Claims about successByRange and the summary *)

Lemma existsb_filter {A : Type} (f q : A -> bool) (l : list A) :
  existsb q (List.filter f l) = existsb (fun x => f x && q x) l.
Proof.
  induction l as [|x l IH]; simpl; [reflexivity|].
  destruct (f x); simpl; rewrite IH; reflexivity.
Qed.

Lemma bin_rows_span (c : nat) (ts : list Trial) :
  bin_rows c (List.filter in_span ts) = bin_rows c ts.
Proof.
  unfold bin_rows. rewrite filter_filter_and. apply List.filter_ext.
  intros x. destruct (in_bin c x) eqn:E; [|apply andb_false_r].
  rewrite (in_span_of_bin c x E). reflexivity.
Qed.

Lemma existsb_ext {A : Type} (f g : A -> bool) (l : list A) :
  (forall x, f x = g x) -> existsb f l = existsb g l.
Proof.
  intros H. induction l as [|x l IH]; simpl; [reflexivity|]. rewrite H, IH. reflexivity.
Qed.

Lemma shown_bins_span (observed : bool) (ts : list Trial) :
  shown_bins observed (List.filter in_span ts) = shown_bins observed ts.
Proof.
  unfold shown_bins. apply List.filter_ext. intros c. f_equal.
  rewrite existsb_filter. apply existsb_ext.
  intros x. destruct (in_bin c x) eqn:E; [|apply andb_false_r].
  rewrite (in_span_of_bin c x E). reflexivity.
Qed.

Lemma bin_rates_span (observed : bool) (ts : list Trial) :
  bin_rates observed (List.filter in_span ts) = bin_rates observed ts.
Proof.
  unfold bin_rates. rewrite shown_bins_span. apply map_ext.
  intros c. rewrite bin_rows_span. reflexivity.
Qed.

Lemma bin_counts_span (observed : bool) (ts : list Trial) :
  bin_counts observed (List.filter in_span ts) = bin_counts observed ts.
Proof.
  unfold bin_counts. rewrite shown_bins_span. apply map_ext.
  intros c. rewrite bin_rows_span. reflexivity.
Qed.

Lemma range_stats_span (observed : bool) (ts : list Trial) :
  range_stats_frame observed (List.filter in_span ts) = range_stats_frame observed ts.
Proof.
  unfold range_stats_frame. cbv zeta.
  rewrite shown_bins_span, bin_rates_span, bin_counts_span. reflexivity.
Qed.

Lemma range_lines_span (ts : list Trial) :
  range_lines (List.filter in_span ts) = range_lines ts.
Proof.
  unfold range_lines. f_equal. apply imap_ext.
  intros c label _. rewrite bin_rows_span. reflexivity.
Qed.

(** Which of the printed lines are range lines and example lines. *)
Lemma range_line_kept (label : string) (rows : list Trial) :
  List.filter is_range_line (range_line label rows) = range_line label rows.
Proof. destruct rows; reflexivity. Qed.

Lemma range_line_no_example (n : Z) (label : string) (rows : list Trial) :
  List.filter (about_example n) (range_line label rows) = [].
Proof. destruct rows; reflexivity. Qed.

Lemma example_line_no_range (n : Z) (rows : list Trial) :
  List.filter is_range_line (example_line n rows) = [].
Proof. destruct rows; reflexivity. Qed.

Lemma example_line_kept (n : Z) (rows : list Trial) :
  List.filter (about_example n) (example_line n rows) = example_line n rows.
Proof. destruct rows; [reflexivity|]. simpl. rewrite Z.eqb_refl. reflexivity. Qed.

Lemma example_line_other (n m : Z) (rows : list Trial) :
  m <> n -> List.filter (about_example n) (example_line m rows) = [].
Proof.
  intros Hne. destruct rows; [reflexivity|]. simpl.
  destruct (Z.eqb_spec m n); [contradiction|reflexivity].
Qed.

Lemma range_lines_unfold (ts : list Trial) :
  range_lines ts =
  range_line "100-300" (bin_rows 0 ts) ++ range_line "300-500" (bin_rows 1 ts) ++
  range_line "500-700" (bin_rows 2 ts) ++ range_line "700-900" (bin_rows 3 ts) ++
  range_line "900-1200" (bin_rows 4 ts) ++ [].
Proof. reflexivity. Qed.

Lemma overall_no_range (ts : list Trial) :
  List.filter is_range_line (overall_lines ts) = [].
Proof. reflexivity. Qed.

Lemma overall_no_example (n : Z) (ts : list Trial) :
  List.filter (about_example n) (overall_lines ts) = [].
Proof. reflexivity. Qed.

Lemma summary_range_lines (ts : list Trial) :
  List.filter is_range_line (summary_events ts) = range_lines ts.
Proof.
  unfold summary_events. rewrite range_lines_unfold.
  rewrite !List.filter_app, overall_no_range, !range_line_kept,
    !example_line_no_range.
  cbn [app]. rewrite !app_nil_r. reflexivity.
Qed.

Lemma summary_example_lines (n : Z) (ts : list Trial) :
  n = 437 \/ n = 551 ->
  List.filter (about_example n) (summary_events ts) = example_line n (rows_of n ts).
Proof.
  intros Hn. unfold summary_events. rewrite range_lines_unfold.
  rewrite !List.filter_app, overall_no_example, !range_line_no_example.
  cbn [app]. destruct Hn as [-> | ->].
  - rewrite example_line_kept, (example_line_other 437 551) by lia.
    apply app_nil_r.
  - rewrite example_line_kept, (example_line_other 551 437) by lia.
    reflexivity.
Qed.

(** C4.  [pd.cut] with the script's edges sorts [N] into the five half-open
    intervals (0,300], (300,500], (500,700], (700,900], (900,1200]: they are
    pairwise disjoint and cover (0,1200].  A row whose [N] is outside
    (0,1200] gets no bin; it is in the rows of no bin, and the frame
    [range_stats], the bar chart and the range lines of the summary are
    those of the table without such rows. *)
Theorem C4_range_bins (observed : bool) (r : ref) (dir : string)
    (h : gmap nat DataFrame) (t : list Event) (ts : list Trial)
    (extra : list (Label * Series)) :
  h !! r = Some (table ts extra) ->
  aligned ts extra ->
  (* the bins are the five intervals *)
  (forall x c, cut_code bins x = Some c <->
               exists lo hi, intervals !! c = Some (lo, hi) /\ lo < x <= hi) /\
  (* pairwise disjoint *)
  (forall x c c' lo hi lo' hi',
     intervals !! c = Some (lo, hi) -> intervals !! c' = Some (lo', hi') ->
     lo < x <= hi -> lo' < x <= hi' -> c = c') /\
  (* covering (0, 1200], and nothing else *)
  (forall x, 0 < x <= 1200 <-> exists c, cut_code bins x = Some c) /\
  (* rows outside the span are in no bin *)
  (forall row c, In row ts -> ~ (0 < N row <= 1200) -> ~ In row (bin_rows c ts)) /\
  (* successByRange *)
  (exists (st' : State) (range_stats : DataFrame) (rates : list float) (counts : list Z),
     plot_success_by_range observed r dir (mkState h t) = Ok (tt, st') /\
     heap st' !! fresh (dom (<[r := ranged ts extra]> h)) = Some range_stats /\
     getitem range_stats "success_rate" = Ok (FloatS rates) /\
     getitem range_stats "count" = Ok (IntS counts) /\
     rates = map (fun c => success_rate (bin_rows c ts)) (shown_bins observed ts) /\
     counts = map (fun c => Z.of_nat (length (bin_rows c ts))) (shown_bins observed ts) /\
     forall ts2 extra2 h2 t2,
       h2 !! r = Some (table ts2 extra2) ->
       List.filter in_span ts2 = List.filter in_span ts ->
       exists st2,
         plot_success_by_range observed r dir (mkState h2 t2) = Ok (tt, st2) /\
         heap st2 !! fresh (dom (<[r := ranged ts2 extra2]> h2)) = Some range_stats /\
         exists chart, trace st' = t ++ chart /\ trace st2 = t2 ++ chart) /\
  (* the summary's range breakdown *)
  (exists (st' : State) (printed : list Event),
     generate_summary_stats r (mkState h t) = Ok (tt, st') /\
     trace st' = t ++ printed /\
     List.filter is_range_line printed =
       concat (imap (fun c label => range_line label (bin_rows c ts)) labels) /\
     List.filter is_range_line printed =
       concat (imap (fun c label =>
                       range_line label (bin_rows c (List.filter in_span ts))) labels)).
Proof.
  intros Hr Hext.
  split; [exact cut_code_interval|].
  split.
  { intros x c c' lo hi lo' hi' Hc Hc' Hx Hx'.
    assert (H1 : cut_code bins x = Some c) by (apply cut_code_interval; eauto).
    assert (H2 : cut_code bins x = Some c') by (apply cut_code_interval; eauto).
    congruence. }
  split.
  { intros x. rewrite cut_code_bins.
    repeat match goal with
           | |- context [?a <=? ?b] => destruct (Z.leb_spec a b)
           end;
      (split; [intros; try lia; eexists; reflexivity
              |intros [c Hc]; try discriminate Hc; lia]). }
  split.
  { intros row c _ Hout Hin. apply List.filter_In in Hin as [_ Hin].
    apply in_span_of_bin, in_span_spec in Hin. contradiction. }
  split.
  - eexists _, (range_stats_frame observed ts), _, _.
    split; [exact (plot_success_by_range_run observed r dir h t ts extra Hr)|].
    cbv zeta. cbn [heap trace].
    split; [apply lookup_insert_eq|].
    do 4 (split; [reflexivity|]).
    intros ts2 extra2 h2 t2 Hr2 Hsame.
    eexists.
    split; [exact (plot_success_by_range_run observed r dir h2 t2 ts2 extra2 Hr2)|].
    cbv zeta. cbn [heap trace].
    rewrite <- (range_stats_span observed ts2), <- (shown_bins_span observed ts2),
      <- (bin_rates_span observed ts2), <- (bin_counts_span observed ts2), Hsame,
      range_stats_span, shown_bins_span, bin_rates_span, bin_counts_span.
    split; [apply lookup_insert_eq|].
    eexists. split; reflexivity.
  - eexists _, (summary_events ts).
    split; [exact (generate_summary_stats_run r h t ts extra Hr Hext)|].
    split; [reflexivity|].
    split; [apply summary_range_lines|].
    rewrite summary_range_lines, <- range_lines_span. reflexivity.
Qed.

Lemma C4_witness :
  store_of sample !! 0%nat = Some (table sample []) /\
  aligned sample [] /\
  exists st' printed,
    generate_summary_stats 0%nat (mkState (store_of sample) []) = Ok (tt, st') /\
    trace st' = [] ++ printed /\
    List.filter is_range_line printed =
      concat (imap (fun c label => range_line label (bin_rows c sample)) labels).
Proof.
  assert (H : store_of sample !! 0%nat = Some (table sample [])) by reflexivity.
  assert (Ha : aligned sample []) by constructor.
  split; [exact H|]. split; [exact Ha|].
  destruct (C4_range_bins false 0%nat "plots" (store_of sample) [] sample [] H Ha)
    as (_ & _ & _ & _ & _ & st' & printed & Hrun & Htrace & Hlines & _).
  exists st', printed. auto.
Defined.

Lemma rows_of_nonempty (n : Z) (ts : list Trial) :
  (exists row, In row ts /\ N row = n) <-> rows_of n ts <> [].
Proof.
  unfold rows_of. split.
  - intros (row & Hin & Hn) E.
    assert (Hrow : In row (List.filter (fun t => N t =? n) ts)).
    { apply List.filter_In. split; [exact Hin|]. apply Z.eqb_eq, Hn. }
    rewrite E in Hrow. destruct Hrow.
  - intros Hne. destruct (List.filter (fun t => N t =? n) ts) as [|row rows] eqn:E;
      [contradiction|].
    assert (Hrow : In row (List.filter (fun t => N t =? n) ts))
      by (rewrite E; left; reflexivity).
    apply List.filter_In in Hrow as [Hin Hn]. exists row. split; [exact Hin|].
    apply Z.eqb_eq, Hn.
Qed.

(** C3.  On every table, the summary prints one example line about
    [N = 437] when the table has a row with [N = 437], and none when it has
    not; the line carries φ and the divisor count of a row with [N = 437]
    and, as success rate, the mean of [success] over all rows with
    [N = 437] times 100. *)
Theorem C3_summary_example_437 (r : ref) (h : gmap nat DataFrame) (t : list Event)
    (ts : list Trial) (extra : list (Label * Series)) :
  h !! r = Some (table ts extra) ->
  aligned ts extra ->
  exists (st' : State) (printed : list Event),
    generate_summary_stats r (mkState h t) = Ok (tt, st') /\
    trace st' = t ++ printed /\
    ((exists row, In row ts /\ N row = 437) ->
     exists row, In row ts /\ N row = 437 /\
       List.filter (about_example 437) printed =
       [ Print [ Lit "  N="; FmtInt 437; Lit ": φ="; FmtCell (IntC (phi row));
                 Lit ", "; FmtCell (IntC (phi_divisors row)); Lit " divisors, ";
                 FmtFloat 0
                   (fmean (map float_of_bool
                             (map success (rows_of 437 ts)))
                    * 100)%float;
                 Lit "% success" ] ]) /\
    (~ (exists row, In row ts /\ N row = 437) ->
     List.filter (about_example 437) printed = []).
Proof.
  intros Hr Hext. eexists _, (summary_events ts).
  split; [exact (generate_summary_stats_run r h t ts extra Hr Hext)|].
  split; [reflexivity|].
  rewrite summary_example_lines by (left; reflexivity).
  rewrite rows_of_nonempty.
  destruct (rows_of 437 ts) as [|first others] eqn:E.
  - split; [intros Hne; contradiction|reflexivity].
  - split; [|intros Hne; exfalso; apply Hne; discriminate].
    intros _. exists first.
    assert (Hin : In first (rows_of 437 ts)) by (rewrite E; left; reflexivity).
    apply List.filter_In in Hin as [Hin Hn]. apply Z.eqb_eq in Hn.
    repeat split; assumption.
Qed.

Lemma C3_witness :
  store_of sample !! 0%nat = Some (table sample []) /\
  aligned sample [] /\
  exists st' printed,
    generate_summary_stats 0%nat (mkState (store_of sample) []) = Ok (tt, st') /\
    trace st' = [] ++ printed.
Proof.
  assert (H : store_of sample !! 0%nat = Some (table sample [])) by reflexivity.
  assert (Ha : aligned sample []) by constructor.
  split; [exact H|]. split; [exact Ha|].
  destruct (C3_summary_example_437 0%nat (store_of sample) [] sample [] H Ha)
    as (st' & printed & Hrun & Htrace & _).
  exists st', printed. auto.
Defined.

(** C10.  In the example lines of the summary (for 437 and 551), φ and the
    divisor count are those of the first row with that [N], while the
    success rate is the mean over all rows with that [N]: the φ and divisor
    columns of the later rows do not reach the output. *)
Theorem C10_example_line_first_row (r : ref) (h : gmap nat DataFrame) (t : list Event)
    (ts : list Trial) (extra : list (Label * Series)) :
  h !! r = Some (table ts extra) ->
  aligned ts extra ->
  exists (st' : State) (printed : list Event),
    generate_summary_stats r (mkState h t) = Ok (tt, st') /\
    trace st' = t ++ printed /\
    forall n first others,
      n = 437 \/ n = 551 ->
      List.filter (fun row => N row =? n) ts = first :: others ->
      List.filter (about_example n) printed =
        [ Print [ Lit "  N="; FmtInt n; Lit ": φ="; FmtCell (IntC (phi first));
                  Lit ", "; FmtCell (IntC (phi_divisors first)); Lit " divisors, ";
                  FmtFloat 0
                    (fmean (map float_of_bool (map success (first :: others)))
                     * 100)%float;
                  Lit "% success" ] ] /\
      forall ts2 extra2 h2 t2 others2,
        h2 !! r = Some (table ts2 extra2) ->
        aligned ts2 extra2 ->
        List.filter (fun row => N row =? n) ts2 = first :: others2 ->
        map success others2 = map success others ->
        exists st2 printed2,
          generate_summary_stats r (mkState h2 t2) = Ok (tt, st2) /\
          trace st2 = t2 ++ printed2 /\
          List.filter (about_example n) printed2 =
            List.filter (about_example n) printed.
Proof.
  intros Hr Hext. eexists _, (summary_events ts).
  split; [exact (generate_summary_stats_run r h t ts extra Hr Hext)|].
  split; [reflexivity|].
  intros n first others Hn Hrows.
  rewrite (summary_example_lines n ts Hn). unfold rows_of. rewrite Hrows.
  split; [reflexivity|].
  intros ts2 extra2 h2 t2 others2 Hr2 Hext2 Hrows2 Hsucc.
  eexists _, (summary_events ts2).
  split; [exact (generate_summary_stats_run r h2 t2 ts2 extra2 Hr2 Hext2)|].
  split; [reflexivity|].
  rewrite (summary_example_lines n ts2 Hn). unfold rows_of. rewrite Hrows2.
  unfold example_line, success_rate. cbn [map]. rewrite Hsucc. reflexivity.
Qed.

Lemma C10_witness :
  store_of sample !! 0%nat = Some (table sample []) /\
  aligned sample [] /\
  exists st' printed,
    generate_summary_stats 0%nat (mkState (store_of sample) []) = Ok (tt, st') /\
    trace st' = [] ++ printed /\
    List.filter (about_example 437) printed =
      [ Print [ Lit "  N="; FmtInt 437; Lit ": φ="; FmtCell (IntC 396);
                Lit ", "; FmtCell (IntC 18); Lit " divisors, ";
                FmtFloat 0 50%float; Lit "% success" ] ].
Proof.
  assert (H : store_of sample !! 0%nat = Some (table sample [])) by reflexivity.
  assert (Ha : aligned sample []) by constructor.
  split; [exact H|]. split; [exact Ha|].
  destruct (C10_example_line_first_row 0%nat (store_of sample) [] sample [] H Ha)
    as (st' & printed & Hrun & Htrace & Hline).
  exists st', printed. split; [exact Hrun|]. split; [exact Htrace|].
  destruct (Hline 437 (mkTrial 437 396 18 "smooth" true 1500)
              [mkTrial 437 1 1 "smooth" false 0]) as [Hl _];
    [left; reflexivity|reflexivity|].
  exact Hl.
Defined.

(** ** Bar colours *)

Lemma Prim2SF_50 : Prim2SF 50 = S754_finite false 7036874417766400 (-47).
Proof. vm_compute. reflexivity. Qed.

Lemma Prim2SF_100 : Prim2SF 100 = S754_finite false 7036874417766400 (-46).
Proof. vm_compute. reflexivity. Qed.

Lemma float_lt_ne (x y : float) :
  PrimFloat.ltb x y = true -> PrimFloat.eqb x y = false.
Proof.
  rewrite FloatAxioms.ltb_spec, FloatAxioms.eqb_spec. unfold SFltb, SFeqb.
  destruct (SFcompare (Prim2SF x) (Prim2SF y)) as [[]|]; congruence.
Qed.

(** A rate at most 50 is neither 100 nor above 50. *)
Lemma float_le_50 (x : float) :
  PrimFloat.leb x 50 = true ->
  PrimFloat.eqb x 100 = false /\ PrimFloat.ltb 50 x = false.
Proof.
  rewrite FloatAxioms.leb_spec, FloatAxioms.eqb_spec, FloatAxioms.ltb_spec.
  unfold SFleb, SFeqb, SFltb.
  rewrite Prim2SF_50, Prim2SF_100.
  destruct (Prim2SF x) as [s|s| |s m e]; cbn [SFcompare].
  - auto.
  - destruct s; intros; try discriminate; auto.
  - discriminate.
  - destruct s; [auto|].
    destruct (Z.compare_spec e (-47)) as [->|Hlt|Hgt].
    + change (-47 ?= -46) with Lt. change (-47 ?= -47) with Eq.
      change (Pos.compare_cont Eq 7036874417766400 m)
        with (Pos.compare_cont (CompOpp Eq) 7036874417766400 m).
      rewrite <- Pos.compare_cont_antisym.
      destruct (Pos.compare_cont Eq m 7036874417766400); cbn [CompOpp];
        intros; try discriminate; auto.
    + intros _. destruct (Z.compare_spec e (-46)); try lia.
      destruct (Z.compare_spec (-47) e); try lia; auto.
    + discriminate.
Qed.

Lemma bar_color_green (rate : float) :
  PrimFloat.eqb rate 100 = true -> bar_color rate = "green".
Proof. intros H. unfold bar_color. rewrite H. reflexivity. Qed.

Lemma bar_color_orange (rate : float) :
  PrimFloat.ltb 50 rate = true -> PrimFloat.ltb rate 100 = true ->
  bar_color rate = "orange".
Proof.
  intros H50 H100. unfold bar_color.
  rewrite (float_lt_ne rate 100 H100), H50. reflexivity.
Qed.

Lemma bar_color_red (rate : float) :
  PrimFloat.leb rate 50 = true -> bar_color rate = "red".
Proof.
  intros H. unfold bar_color.
  destruct (float_le_50 rate H) as [-> ->]. reflexivity.
Qed.

Lemma In_imap {A B : Type} (f : nat -> A -> B) (l : list A) (y : B) :
  In y (imap f l) <-> exists i x, y = f i x /\ l !! i = Some x.
Proof. rewrite <- list_elem_of_In. apply elem_of_lookup_imap. Qed.

Lemma seq_sorted (a n : nat) : StronglySorted lt (seq a n).
Proof.
  revert a. induction n as [|n IH]; intros a; simpl; constructor; [apply IH|].
  apply List.Forall_forall. intros x Hx. apply List.in_seq in Hx. lia.
Qed.

Lemma filter_sorted {A : Type} (R : A -> A -> Prop) (f : A -> bool) (l : list A) :
  StronglySorted R l -> StronglySorted R (List.filter f l).
Proof.
  induction 1 as [|x l Hs IH Hall]; simpl; [constructor|].
  destruct (f x); [|exact IH]. constructor; [exact IH|].
  rewrite List.Forall_forall in *. intros y Hy.
  apply List.filter_In in Hy as [Hy _]. auto.
Qed.

(** C8.  In [plot_success_by_range] there is one bar per bin that
    [groupby] keeps (all five with [observed = False], the bins holding a
    row otherwise), in the order of the labels.  The height of a bar is the
    success rate of the rows of its bin in percent (the mean of [success]
    times 100), its count is the number of these rows.  The colour of a bar
    is a function of its rate alone: green when the rate equals 100, orange
    when it is above 50 and below 100, red when it is at most 50; every bar
    gets exactly one colour, and exactly one label, [n=] followed by the
    count of its bin; nothing else is coloured or labelled. *)
Theorem C8_bar_colours_and_labels (observed : bool) (r : ref) (dir : string)
    (h : gmap nat DataFrame) (t : list Event) (ts : list Trial)
    (extra : list (Label * Series)) :
  h !! r = Some (table ts extra) ->
  exists (st' : State) (range_stats : DataFrame) (shown : list nat)
         (rates : list float) (counts : list Z) (chart : list Event),
    plot_success_by_range observed r dir (mkState h t) = Ok (tt, st') /\
    heap st' !! fresh (dom (<[r := ranged ts extra]> h)) = Some range_stats /\
    getitem range_stats "range" = Ok (CatS labels (map Some shown)) /\
    getitem range_stats "success_rate" = Ok (FloatS rates) /\
    getitem range_stats "count" = Ok (IntS counts) /\
    trace st' = t ++ chart /\
    StronglySorted lt shown /\
    (forall c, In c shown <->
       (c < 5)%nat /\
       (observed = true ->
        exists row, In row ts /\ cut_code bins (N row) = Some c)) /\
    (observed = false -> shown = [0; 1; 2; 3; 4]%nat) /\
    rates = map (fun c => (fmean (map float_of_bool (map success (bin_rows c ts)))
                           * 100)%float) shown /\
    counts = map (fun c => Z.of_nat (length (bin_rows c ts))) shown /\
    In (Bar (CatS labels (map Some shown)) (FloatS rates)) chart /\
    (forall i color,
       In (SetColor i color) chart <->
       exists rate, rates !! i = Some rate /\ color = bar_color rate) /\
    (forall x y text,
       In (Text x y text) chart <->
       exists i rate count,
         rates !! i = Some rate /\ counts !! i = Some count /\
         x = IntN (Z.of_nat i) /\ y = FloatN (rate + 3)%float /\
         text = [Lit "n="; FmtInt count]) /\
    (forall rate, PrimFloat.eqb rate 100 = true -> bar_color rate = "green") /\
    (forall rate, PrimFloat.ltb 50 rate = true -> PrimFloat.ltb rate 100 = true ->
                  bar_color rate = "orange") /\
    (forall rate, PrimFloat.leb rate 50 = true -> bar_color rate = "red").
Proof.
  intros Hr.
  eexists _, (range_stats_frame observed ts), (shown_bins observed ts),
    (bin_rates observed ts), (bin_counts observed ts), _.
  split; [exact (plot_success_by_range_run observed r dir h t ts extra Hr)|].
  cbv zeta. cbn [heap trace].
  split; [apply lookup_insert_eq|].
  do 4 (split; [reflexivity|]).
  split; [unfold shown_bins; apply filter_sorted, seq_sorted|].
  split.
  { intros c. rewrite shown_bins_In. change (length labels) with 5%nat.
    unfold bin_of. destruct observed; intuition congruence. }
  split; [intros ->; reflexivity|].
  do 2 (split; [reflexivity|]).
  split; [unfold success_by_range_events; simpl; auto|].
  split; [|split; [|auto using bar_color_green, bar_color_orange, bar_color_red]].
  - intros i color. unfold success_by_range_events.
    rewrite !in_app_iff. unfold bar_colors, bar_texts.
    rewrite !In_imap. split.
    + intros [H|[H|[H|[H|H]]]].
      * simpl in H. intuition discriminate.
      * destruct H as (j & x & [= <- ->] & Hx). eauto.
      * simpl in H. intuition discriminate.
      * destruct H as (j & x & Hd & _). discriminate Hd.
      * simpl in H. intuition discriminate.
    + intros (rate & Hrate & ->). right. left. exists i, rate. auto.
  - intros x y text. unfold success_by_range_events.
    rewrite !in_app_iff. unfold bar_colors, bar_texts.
    rewrite !In_imap. split.
    + intros [H|[H|[H|[H|H]]]].
      * simpl in H. intuition discriminate.
      * destruct H as (j & z & Hd & _). discriminate Hd.
      * simpl in H. intuition discriminate.
      * destruct H as (j & [rate count] & [= -> -> ->] & Hz).
        apply lookup_zip_Some in Hz as [Hrate Hcount].
        exists j, rate, count. auto.
      * simpl in H. intuition discriminate.
    + intros (i & rate & count & Hrate & Hcount & -> & -> & ->).
      do 3 right. left. exists i, (rate, count). split; [reflexivity|].
      apply lookup_zip_Some. auto.
Qed.

(** A green, an orange and a red bar, and two bins without rows. *)
Lemma C8_witness :
  store_of three_colours !! 0%nat = Some (table three_colours []) /\
  exists st' chart,
    plot_success_by_range false 0%nat "plots" (mkState (store_of three_colours) []) =
      Ok (tt, st') /\
    trace st' = [] ++ chart /\
    In (SetColor 0 "green") chart /\
    In (SetColor 1 "orange") chart /\
    In (SetColor 2 "red") chart /\
    In (Text (IntN 1) (FloatN (2 / 3 * 100 + 3)%float) [Lit "n="; FmtInt 3]) chart /\
    In (Text (IntN 4) (FloatN (nan + 3)%float) [Lit "n="; FmtInt 0]) chart /\
    ~ In (SetColor 5 "red") chart.
Proof.
  assert (H : store_of three_colours !! 0%nat = Some (table three_colours []))
    by reflexivity.
  split; [exact H|].
  destruct (C8_bar_colours_and_labels false 0%nat "plots" (store_of three_colours) []
              three_colours [] H)
    as (st' & s & shown & rates & counts & chart & Hrun & _ & _ & _ & _ & Ht & _ & _ &
        Hshown & Hrates & Hcounts & _ & Hcol & Htext & _).
  rewrite (Hshown eq_refl) in Hrates, Hcounts.
  exists st', chart. split; [exact Hrun|]. split; [exact Ht|].
  repeat split.
  - apply Hcol. eexists. split; [rewrite Hrates; reflexivity|vm_compute; reflexivity].
  - apply Hcol. eexists. split; [rewrite Hrates; reflexivity|vm_compute; reflexivity].
  - apply Hcol. eexists. split; [rewrite Hrates; reflexivity|vm_compute; reflexivity].
  - apply Htext. exists 1%nat. eexists _, _.
    split; [rewrite Hrates; reflexivity|].
    split; [rewrite Hcounts; reflexivity|].
    split; [reflexivity|]. split; [|reflexivity]. vm_compute. reflexivity.
  - apply Htext. exists 4%nat. eexists _, _.
    split; [rewrite Hrates; reflexivity|].
    split; [rewrite Hcounts; reflexivity|].
    split; [reflexivity|]. split; [|reflexivity]. vm_compute. reflexivity.
  - intros Hin. apply Hcol in Hin as (rate & Hrate & _).
    rewrite Hrates in Hrate. discriminate Hrate.
Defined.

(** ** What each operation does to the table it is given *)

(** The grouped frame of [plot_success_vs_phi_divisors], before
    [reset_index]. *)
Lemma groupby_divisors (observed : bool) idx ts extra :
  groupby_agg observed (trial_frame idx ts extra) "phi_divisors"
    [("success", One Mean); ("N", One Mean)] =
  let ks := unique_sorted (map phi_divisors ts) in
  Ok (mkDF (Some "phi_divisors") (IntS ks)
        [ (L1 "success",
            FloatS (map (fun k => fmean (map float_of_bool
                                           (map success (divisor_rows k ts)))) ks));
          (L1 "N",
            FloatS (map (fun k => fmean (map float_of_Z (map N (divisor_rows k ts)))) ks)) ]).
Proof.
  unfold groupby_agg.
  change (getitem (trial_frame idx ts extra) (L1 "phi_divisors"))
    with (Ok (IntS (map phi_divisors ts))).
  rsimpl. rewrite group_masks_int.
  unfold mapR, agg_entry. rsimpl. cbn [fst snd].
  change (getitem (trial_frame idx ts extra) (L1 "success"))
    with (Ok (BoolS (map success ts))).
  change (getitem (trial_frame idx ts extra) (L1 "N")) with (Ok (IntS (map N ts))).
  rsimpl. rewrite !map_map.
  rewrite (agg_mean_bool (fun k t => phi_divisors t =? k)).
  rewrite (agg_mean_int (fun k t => phi_divisors t =? k)).
  reflexivity.
Qed.

(** Effect of [plot_success_vs_phi_divisors]: one new frame, the chart, and
    nothing else. *)
Lemma plot_success_vs_phi_divisors_run (observed : bool) r dir h t ts extra :
  h !! r = Some (table ts extra) ->
  plot_success_vs_phi_divisors observed r dir (mkState h t) =
  let ks := unique_sorted (map phi_divisors ts) in
  Ok (tt, mkState (<[fresh (dom h) := by_divisors_frame ts]> h)
            (t ++ success_vs_phi_events dir (IntS ks)
                    (FloatS (map (fun k => success_rate (divisor_rows k ts)) ks))
                    (FloatS (map (fun k => fmean (map float_of_Z
                                                    (map N (divisor_rows k ts)))) ks)))).
Proof.
  intros Hr. unfold plot_success_vs_phi_divisors.
  rewrite run_emit.
  erewrite run_deref by eassumption.
  erewrite run_lift by apply (groupby_divisors observed _ ts extra).
  rewrite run_new. cbv zeta. frame_simpl.
  erewrite run_imul by (apply lookup_insert_eq || reflexivity).
  rewrite insert_insert_eq. frame_simpl.
  rewrite run_emit.
  erewrite run_deref by apply lookup_insert_eq.
  do 3 (erewrite run_lift by reflexivity).
  rewrite !run_emit. unfold emit; cbn [heap trace].
  rewrite !map_map.
  repeat rewrite <- (app_assoc t). reflexivity.
Qed.

(** C1 (not met by the code).  The claim is that no operation changes the
    table it is given.  Evaluated on the table of the two sample trials,
    [plot_success_by_range] and [generate_summary_stats] both leave the
    table with a seventh column, [range], that it did not have before the
    call. *)
Theorem C1_range_column_written_to_table (observed : bool) :
  exists (st1 st2 : State) (after : DataFrame),
    plot_success_by_range observed 0%nat "plots" (mkState (store_of two_rows) []) =
      Ok (tt, st1) /\
    generate_summary_stats 0%nat (mkState (store_of two_rows) []) = Ok (tt, st2) /\
    store_of two_rows !! 0%nat = Some (read_csv two_rows) /\
    heap st1 !! 0%nat = Some after /\
    heap st2 !! 0%nat = Some after /\
    map fst (columns (read_csv two_rows)) =
      [L1 "N"; L1 "phi"; L1 "phi_divisors"; L1 "strategy"; L1 "success"; L1 "time_ms"] /\
    map fst (columns after) =
      [L1 "N"; L1 "phi"; L1 "phi_divisors"; L1 "strategy"; L1 "success"; L1 "time_ms";
       L1 "range"] /\
    getitem (read_csv two_rows) "range" = Raise (KeyError "range") /\
    getitem after "range" = Ok (CatS labels [Some 1%nat; Some 1%nat]) /\
    after <> read_csv two_rows.
Proof.
  assert (H : store_of two_rows !! 0%nat = Some (table two_rows [])) by reflexivity.
  eexists _, _, (ranged two_rows []).
  split; [exact (plot_success_by_range_run observed 0%nat "plots" _ [] two_rows [] H)|].
  split; [exact (generate_summary_stats_run 0%nat _ [] two_rows [] H
                   ltac:(constructor))|].
  split; [exact H|].
  cbv zeta. cbn [heap].
  split; [apply lookup_other; apply lookup_insert_eq|].
  split; [apply lookup_insert_eq|].
  do 4 (split; [reflexivity|]).
  intros E. apply (f_equal (fun d => length (columns d))) in E. discriminate E.
Qed.

(** The three other operations leave every frame of the store, the table
    included, as it was. *)
Theorem plots_keep_the_store (observed : bool) (r : ref) (dir : string)
    (h : gmap nat DataFrame) (t : list Event) (ts : list Trial)
    (extra : list (Label * Series)) :
  h !! r = Some (table ts extra) ->
  (exists st', plot_success_vs_n observed r dir (mkState h t) = Ok (tt, st') /\
               forall l d, h !! l = Some d -> heap st' !! l = Some d) /\
  (exists st', plot_success_vs_phi_divisors observed r dir (mkState h t) = Ok (tt, st') /\
               forall l d, h !! l = Some d -> heap st' !! l = Some d) /\
  (exists st', plot_time_vs_n observed r dir (mkState h t) = Ok (tt, st') /\
               forall l d, h !! l = Some d -> heap st' !! l = Some d).
Proof.
  intros Hr. repeat split.
  - eexists. split; [exact (plot_success_vs_n_run observed r dir h t ts extra Hr)|].
    intros l d Hl. apply lookup_other. exact Hl.
  - eexists.
    split; [exact (plot_success_vs_phi_divisors_run observed r dir h t ts extra Hr)|].
    intros l d Hl. apply lookup_other. exact Hl.
  - eexists. split; [exact (plot_time_vs_n_run observed r dir h t ts extra Hr)|].
    intros l d Hl. apply lookup_other, lookup_other. exact Hl.
Qed.

Lemma plots_keep_the_store_witness :
  store_of sample !! 0%nat = Some (table sample []) /\
  exists st',
    plot_success_vs_phi_divisors true 0%nat "plots" (mkState (store_of sample) []) =
      Ok (tt, st') /\
    heap st' !! 0%nat = Some (table sample []).
Proof.
  assert (H : store_of sample !! 0%nat = Some (table sample [])) by reflexivity.
  split; [exact H|].
  destruct (plots_keep_the_store true 0%nat "plots" (store_of sample) [] sample [] H)
    as (_ & (st' & Hrun & Hkeep) & _).
  exists st'. split; [exact Hrun|]. apply Hkeep. exact H.
Defined.

Lemma label_eqb_eq (a b : Label) : label_eqb a b = true <-> a = b.
Proof.
  destruct a, b; simpl; rewrite ?andb_true_iff, ?String.eqb_eq;
    split; try discriminate; try congruence.
  - intros [-> ->]. reflexivity.
  - intros [= -> ->]. auto.
Qed.

Lemma lookup_col_assign_other (l k : Label) (s : Series) (cols : list (Label * Series)) :
  label_eqb l k = false ->
  lookup_col l (assign_col k s cols) = lookup_col l cols.
Proof.
  intros Hne.
  assert (Hkl : label_eqb k l = false).
  { destruct (label_eqb k l) eqn:E; [|reflexivity].
    apply label_eqb_eq in E. subst k.
    assert (label_eqb l l = true) by (apply label_eqb_eq; reflexivity). congruence. }
  induction cols as [|[l' s'] cols IH]; simpl.
  - rewrite Hkl. reflexivity.
  - destruct (label_eqb l' k) eqn:E; simpl.
    + apply label_eqb_eq in E. subst l'. rewrite Hkl. reflexivity.
    + destruct (label_eqb l' l); [reflexivity|exact IH].
Qed.

(** [plot_success_by_range] and [generate_summary_stats] write the column
    [range] to the table they are given, and change nothing else in it nor
    in any other frame that was in the store. *)
Theorem range_writers_touch_one_column (observed : bool) (r : ref) (dir : string)
    (h : gmap nat DataFrame) (t : list Event) (ts : list Trial)
    (extra : list (Label * Series)) :
  h !! r = Some (table ts extra) ->
  aligned ts extra ->
  exists (st1 st2 : State) (after : DataFrame),
    plot_success_by_range observed r dir (mkState h t) = Ok (tt, st1) /\
    generate_summary_stats r (mkState h t) = Ok (tt, st2) /\
    heap st1 !! r = Some after /\
    heap st2 !! r = Some after /\
    index after = index (table ts extra) /\
    getitem after "range" = Ok (CatS labels (map (fun row => cut_code bins (N row)) ts)) /\
    (forall l, label_eqb l (L1 "range") = false ->
               lookup_col l (columns after) = lookup_col l (columns (table ts extra))) /\
    (forall l d, l <> r -> h !! l = Some d ->
                 heap st1 !! l = Some d /\ heap st2 !! l = Some d).
Proof.
  intros Hr Hext. eexists _, _, (ranged ts extra).
  split; [exact (plot_success_by_range_run observed r dir h t ts extra Hr)|].
  split; [exact (generate_summary_stats_run r h t ts extra Hr Hext)|].
  cbv zeta. cbn [heap].
  split; [apply lookup_other; apply lookup_insert_eq|].
  split; [apply lookup_insert_eq|].
  split; [reflexivity|].
  split; [apply getitem_range|].
  split.
  - intros l Hl. unfold ranged, table, trial_frame.
    cbn [columns trial_columns app lookup_col].
    repeat match goal with
           | |- (if ?b then _ else _) = (if ?b then _ else _) =>
               destruct b; [reflexivity|]
           end.
    apply lookup_col_assign_other. exact Hl.
  - intros l d Hne Hl. split.
    + apply lookup_other. rewrite lookup_insert_ne by congruence. exact Hl.
    + rewrite lookup_insert_ne by congruence. exact Hl.
Qed.

Lemma range_writers_touch_one_column_witness :
  store_of sample !! 0%nat = Some (table sample []) /\
  aligned sample [] /\
  exists st1 after,
    plot_success_by_range false 0%nat "plots" (mkState (store_of sample) []) =
      Ok (tt, st1) /\
    heap st1 !! 0%nat = Some after /\
    getitem after "range" =
      Ok (CatS labels (map (fun row => cut_code bins (N row)) sample)).
Proof.
  assert (H : store_of sample !! 0%nat = Some (table sample [])) by reflexivity.
  assert (Ha : aligned sample []) by constructor.
  split; [exact H|]. split; [exact Ha|].
  destruct (range_writers_touch_one_column false 0%nat "plots" (store_of sample) []
              sample [] H Ha) as (st1 & st2 & after & Hrun & _ & Hafter & _ & _ & Hrange & _).
  exists st1, after. auto.
Defined.

(** ** The whole run *)

Lemma run_bind_ok {A B : Type} (m : M A) (f : A -> M B) (st st' : State) (a : A) :
  m st = Ok (a, st') -> (m ≫= f) st = f a st'.
Proof. intros H. cbv [mbind M_bind]. rewrite H. reflexivity. Qed.

Lemma app_tail7 {A : Type} (x s : list A) (a b c d e f g : A) :
  (((((((x ++ s) ++ [a]) ++ [b]) ++ [c]) ++ [d]) ++ [e]) ++ [f]) ++ [g] =
  x ++ s ++ [a; b; c; d; e; f; g].
Proof. rewrite <- !app_assoc. reflexivity. Qed.

(** A results file with at least one data row is read as the trial table. *)
Lemma read_csv_rows (csv : list Trial) : csv <> [] -> read_csv csv = table csv [].
Proof. destruct csv; [congruence|reflexivity]. Qed.

(** On a results file without data rows the columns are empty object
    columns: the first two charts are drawn from empty groups, then
    [df[df['success']]] in [plot_time_vs_n] selects no column and the column
    [time_ms] is missing from [success_df]. *)
Lemma main_header_only (observed : bool) :
  main observed [] (mkState ∅ []) = Raise (KeyError "time_ms").
Proof. destruct observed; vm_compute; reflexivity. Qed.

(** [main] runs to its end on every results file with at least one data
    row; the table it loaded then carries the column [range], and the
    summary printed is that of the trials of the file.  On a file without
    data rows it stops with [KeyError] for [time_ms]. *)
Theorem main_runs (observed : bool) (csv : list Trial) :
  (csv = [] -> main observed csv (mkState ∅ []) = Raise (KeyError "time_ms")) /\
  (csv <> [] ->
   exists (st' : State) (before after : list Event),
     main observed csv (mkState ∅ []) = Ok (tt, st') /\
     heap st' !! fresh (dom (∅ : gmap nat DataFrame)) = Some (ranged csv []) /\
     trace st' = before ++ summary_events csv ++ after).
Proof.
  split; [intros ->; apply main_header_only|]. intros Hrows.
  set (df := fresh (dom (∅ : gmap nat DataFrame))).
  unfold main, load_data.
  rewrite run_emit, run_new. fold df. rewrite (read_csv_rows csv Hrows).
  set (h0 := <[df := table csv []]> (∅ : gmap nat DataFrame)).
  assert (H0 : h0 !! df = Some (table csv [])) by apply lookup_insert_eq.
  erewrite run_deref by exact H0.
  rewrite run_emit.
  do 2 (erewrite run_lift by reflexivity). rewrite run_emit.
  do 2 (erewrite run_lift by reflexivity). rewrite !run_emit.
  erewrite run_bind_ok
    by exact (plot_success_vs_n_run observed df "plots" h0 _ csv [] H0).
  set (h1 := <[fresh (dom h0) := success_by_n_frame csv]> h0).
  assert (H1 : h1 !! df = Some (table csv [])) by (apply lookup_other; exact H0).
  erewrite run_bind_ok
    by exact (plot_success_vs_phi_divisors_run observed df "plots" h1 _ csv [] H1).
  set (h2 := <[fresh (dom h1) := by_divisors_frame csv]> h1).
  assert (H2 : h2 !! df = Some (table csv [])) by (apply lookup_other; exact H1).
  erewrite run_bind_ok
    by exact (plot_time_vs_n_run observed df "plots" h2 _ csv [] H2).
  cbv zeta.
  set (h3 := <[fresh (dom h2) := success_df_frame csv []]> h2).
  set (h4 := <[fresh (dom h3) := time_by_n_frame csv]> h3).
  assert (H4 : h4 !! df = Some (table csv [])).
  { apply lookup_other, lookup_other. exact H2. }
  erewrite run_bind_ok
    by exact (plot_success_by_range_run observed df "plots" h4 _ csv [] H4).
  cbv zeta.
  set (h5 := <[df := ranged csv []]> h4).
  set (h6 := <[fresh (dom h5) := range_stats_frame observed csv]> h5).
  assert (H6 : h6 !! df = Some (table csv [(L1 "range", range_column csv)])).
  { apply lookup_other. apply lookup_insert_eq. }
  assert (Hal : aligned csv [(L1 "range", range_column csv)]).
  { repeat constructor. simpl. apply length_map. }
  erewrite run_bind_ok
    by exact (generate_summary_stats_run df h6 _ csv _ H6 Hal).
  rewrite !run_emit. unfold emit. cbn [heap trace].
  eexists _, _, _. split; [reflexivity|]. cbn [heap trace]. split.
  - apply lookup_insert_eq.
  - apply app_tail7.
Qed.

Lemma main_runs_witness :
  main false [] (mkState ∅ []) = Raise (KeyError "time_ms") /\
  sample <> [] /\
  exists st' : State,
    main false sample (mkState ∅ []) = Ok (tt, st') /\
    heap st' !! fresh (dom (∅ : gmap nat DataFrame)) = Some (ranged sample []).
Proof.
  assert (H : sample <> []) by discriminate.
  split; [exact (proj1 (main_runs false []) eq_refl)|].
  split; [exact H|].
  destruct (proj2 (main_runs false sample) H) as (st' & before & after & Hrun & Hh & _).
  exists st'. auto.
Defined.

(** ** Missing columns *)






(** ** The divisor chart *)

(** On every table, [plot_success_vs_phi_divisors] builds [grouped] with one
    row per distinct divisor count, in strictly ascending order; the
    success value of a row is the mean of [success] over the trials with
    that divisor count times 100, its [N] the mean of their [N]; the
    scatter plot draws these three columns. *)
Theorem divisor_chart_groups (observed : bool) (r : ref) (dir : string)
    (h : gmap nat DataFrame) (t : list Event) (ts : list Trial)
    (extra : list (Label * Series)) :
  h !! r = Some (table ts extra) ->
  exists (st' : State) (grouped : DataFrame) (ks : list Z) (rates means : list float)
         (chart : list Event),
    plot_success_vs_phi_divisors observed r dir (mkState h t) = Ok (tt, st') /\
    heap st' !! fresh (dom h) = Some grouped /\
    trace st' = t ++ chart /\
    getitem grouped "phi_divisors" = Ok (IntS ks) /\
    getitem grouped "success" = Ok (FloatS rates) /\
    getitem grouped "N" = Ok (FloatS means) /\
    In (Scatter (IntS ks) (FloatS rates) (FloatS means)) chart /\
    rates = map (fun k => (fmean (map float_of_bool
                                    (map success (divisor_rows k ts))) * 100)%float) ks /\
    means = map (fun k => fmean (map float_of_Z (map N (divisor_rows k ts)))) ks /\
    len grouped = length ks /\
    StronglySorted Z.lt ks /\
    (forall k, In k ks <-> exists row, In row ts /\ phi_divisors row = k).
Proof.
  intros Hr.
  eexists _, (by_divisors_frame ts), (unique_sorted (map phi_divisors ts)), _, _, _.
  split; [exact (plot_success_vs_phi_divisors_run observed r dir h t ts extra Hr)|].
  cbv zeta. cbn [heap trace].
  split; [apply lookup_insert_eq|].
  do 4 (split; [reflexivity|]).
  split; [unfold success_vs_phi_events; simpl; auto|].
  do 2 (split; [reflexivity|]).
  split; [apply range_index_len|].
  split; [apply unique_sorted_sorted|].
  intros k. rewrite unique_sorted_In, in_map_iff.
  split; intros (row & H1 & H2); exists row; auto.
Qed.

Lemma divisor_chart_groups_witness :
  store_of sample !! 0%nat = Some (table sample []) /\
  exists st' grouped ks,
    plot_success_vs_phi_divisors false 0%nat "plots" (mkState (store_of sample) []) =
      Ok (tt, st') /\
    heap st' !! fresh (dom (store_of sample)) = Some grouped /\
    getitem grouped "phi_divisors" = Ok (IntS ks) /\
    (In 24 ks /\ ~ In 7 ks).
Proof.
  assert (H : store_of sample !! 0%nat = Some (table sample [])) by reflexivity.
  split; [exact H|].
  destruct (divisor_chart_groups false 0%nat "plots" (store_of sample) [] sample [] H)
    as (st' & g & ks & rates & means & chart & Hrun & Hg & _ & Hk & _ & _ & _ & _ & _ &
        _ & _ & Hks).
  exists st', g, ks. split; [exact Hrun|]. split; [exact Hg|]. split; [exact Hk|].
  split.
  - apply Hks. eexists. split; [right; right; right; left; reflexivity|reflexivity].
  - intros H7. apply Hks in H7 as (row & Hin & Hd).
    simpl in Hin. repeat (destruct Hin as [<-|Hin]; [discriminate Hd|]). exact Hin.
Defined.

(** ** Edge cases of the charts *)

(** A number that was tried exactly once: its point in the success chart
    is at 100 when the trial succeeded and at 0 when it failed, and its
    error bar is NaN (the sample deviation of one value). *)
Theorem single_trial_group (observed : bool) (r : ref) (dir : string)
    (h : gmap nat DataFrame) (t : list Event) (ts : list Trial)
    (extra : list (Label * Series)) :
  h !! r = Some (table ts extra) ->
  exists (st' : State) (s : DataFrame) (ks : list Z) (rates stds : list float)
         (chart : list Event),
    plot_success_vs_n observed r dir (mkState h t) = Ok (tt, st') /\
    heap st' !! fresh (dom h) = Some s /\
    trace st' = t ++ chart /\
    getitem s "N" = Ok (IntS ks) /\
    getitem s "success_rate" = Ok (FloatS rates) /\
    getitem s "std" = Ok (FloatS stds) /\
    In (Errorbar (IntS ks) (FloatS rates) (FloatS stds) "Smooth basis (middle-out)")
       chart /\
    forall i k row,
      ks !! i = Some k ->
      List.filter (fun row => N row =? k) ts = [row] ->
      rates !! i = Some (if success row then 100%float else 0%float) /\
      stds !! i = Some nan.
Proof.
  intros Hr.
  eexists _, (success_by_n_frame ts), (unique_sorted (map N ts)), _, _, _.
  split; [exact (plot_success_vs_n_run observed r dir h t ts extra Hr)|].
  cbv zeta. cbn [heap trace].
  split; [apply lookup_insert_eq|].
  do 4 (split; [reflexivity|]).
  split; [unfold success_vs_n_events; simpl; auto|].
  intros i k row Hk Hone. rewrite !lookup_map, Hk. cbn [fmap option_fmap option_map].
  unfold success_rate, success_std, rows_of. rewrite Hone. cbn [map].
  split; f_equal; destruct (success row); vm_compute; reflexivity.
Qed.

Lemma single_trial_group_witness :
  store_of sample !! 0%nat = Some (table sample []) /\
  exists st' s,
    plot_success_vs_n false 0%nat "plots" (mkState (store_of sample) []) = Ok (tt, st') /\
    heap st' !! fresh (dom (store_of sample)) = Some s.
Proof.
  assert (H : store_of sample !! 0%nat = Some (table sample [])) by reflexivity.
  split; [exact H|].
  destruct (single_trial_group false 0%nat "plots" (store_of sample) [] sample [] H)
    as (st' & s & ks & rates & stds & chart & Hrun & Hs & _).
  exists st', s. auto.
Defined.

Lemma successful_none (ts : list Trial) :
  (forall row, In row ts -> success row = false) -> successful ts = [].
Proof.
  intros Hall. unfold successful.
  induction ts as [|x ts IH]; [reflexivity|]. simpl.
  rewrite (Hall x) by (left; reflexivity).
  apply IH. intros row Hrow. apply Hall. right. exact Hrow.
Qed.

(** A table without a successful trial: [plot_time_vs_n] raises nothing
    and draws an error-bar chart without points, from an empty [grouped];
    the summary prints NaN as the average time. *)
Theorem no_successful_trial (observed : bool) (r : ref) (dir : string)
    (h : gmap nat DataFrame) (t : list Event) (ts : list Trial)
    (extra : list (Label * Series)) :
  h !! r = Some (table ts extra) ->
  aligned ts extra ->
  (forall row, In row ts -> success row = false) ->
  (exists (st' : State) (success_df grouped : DataFrame) (chart : list Event),
     plot_time_vs_n observed r dir (mkState h t) = Ok (tt, st') /\
     heap st' !! fresh (dom h) = Some success_df /\
     heap st' !! fresh (dom (<[fresh (dom h) := success_df]> h)) = Some grouped /\
     len success_df = 0%nat /\
     len grouped = 0%nat /\
     getitem grouped "N" = Ok (IntS []) /\
     trace st' = t ++ chart /\
     In (Errorbar (IntS []) (FloatS []) (FloatS []) "Smooth basis") chart) /\
  (exists (st' : State) (printed : list Event),
     generate_summary_stats r (mkState h t) = Ok (tt, st') /\
     trace st' = t ++ printed /\
     In (Print [Lit "  Successes: "; FmtInt 0]) printed /\
     In (Print [Lit "\nAverage time to factor (successful): "; FmtFloat 1 nan; Lit "s"])
        printed).
Proof.
  intros Hr Hext Hall. pose proof (successful_none ts Hall) as Hnone. split.
  - eexists _, (success_df_frame ts extra), (time_by_n_frame ts), _.
    split; [exact (plot_time_vs_n_run observed r dir h t ts extra Hr)|].
    cbv zeta. cbn [heap trace].
    split; [apply lookup_other, lookup_insert_eq|].
    split; [apply lookup_insert_eq|].
    split.
    { etransitivity; [apply (len_mask_table success)|].
      fold (successful ts). rewrite Hnone. reflexivity. }
    unfold time_by_n_frame. rewrite Hnone. cbn [map unique_sorted foldr length].
    do 3 (split; [reflexivity|]).
    unfold time_vs_n_events. simpl. auto.
  - eexists _, (summary_events ts).
    split; [exact (generate_summary_stats_run r h t ts extra Hr Hext)|].
    split; [reflexivity|].
    unfold summary_events, overall_lines, time_line. rewrite Hnone.
    split.
    + apply in_or_app. left. simpl. auto 10.
    + apply in_or_app. right. apply in_or_app. right. apply in_or_app. right.
      apply in_or_app. left. left. reflexivity.
Qed.

Lemma no_successful_trial_witness :
  store_of all_failed !! 0%nat = Some (table all_failed []) /\
  aligned all_failed [] /\
  (forall row, In row all_failed -> success row = false) /\
  exists st' printed,
    generate_summary_stats 0%nat (mkState (store_of all_failed) []) = Ok (tt, st') /\
    trace st' = [] ++ printed /\
    In (Print [Lit "\nAverage time to factor (successful): "; FmtFloat 1 nan; Lit "s"])
       printed.
Proof.
  assert (H : store_of all_failed !! 0%nat = Some (table all_failed [])) by reflexivity.
  assert (Ha : aligned all_failed []) by constructor.
  assert (Hf : forall row, In row all_failed -> success row = false).
  { intros row [<-|[<-|[<-|[]]]]; reflexivity. }
  split; [exact H|]. split; [exact Ha|]. split; [exact Hf|].
  destruct (no_successful_trial false 0%nat "plots" (store_of all_failed) []
              all_failed [] H Ha Hf) as [_ (st' & printed & Hrun & Ht & _ & Hnan)].
  exists st', printed. auto.
Defined.

Lemma filter_none {A : Type} (f : A -> bool) (l : list A) :
  (forall x, In x l -> f x = false) -> List.filter f l = [].
Proof.
  induction l as [|x l IH]; intros H; [reflexivity|]. simpl.
  rewrite (H x) by (left; reflexivity). apply IH. intros y Hy. apply H. right. exact Hy.
Qed.

Lemma shown_bins_all (ts : list Trial) :
  shown_bins false ts = [0; 1; 2; 3; 4]%nat.
Proof. reflexivity. Qed.

(** A range without any row.  When [groupby] keeps unobserved categories
    ([observed = False]) the range still gets its bar: the rate is NaN, the
    bar is red and its label reads [n=0].  When it drops them the range has
    no bar at all. *)
Theorem empty_range_bar (observed : bool) (r : ref) (dir : string)
    (h : gmap nat DataFrame) (t : list Event) (ts : list Trial)
    (extra : list (Label * Series)) :
  h !! r = Some (table ts extra) ->
  exists (st' : State) (range_stats : DataFrame) (codes : list (option nat))
         (rates : list float) (counts : list Z) (chart : list Event),
    plot_success_by_range observed r dir (mkState h t) = Ok (tt, st') /\
    heap st' !! fresh (dom (<[r := ranged ts extra]> h)) = Some range_stats /\
    trace st' = t ++ chart /\
    getitem range_stats "range" = Ok (CatS labels codes) /\
    getitem range_stats "success_rate" = Ok (FloatS rates) /\
    getitem range_stats "count" = Ok (IntS counts) /\
    In (Bar (CatS labels codes) (FloatS rates)) chart /\
    forall c,
      (c < 5)%nat ->
      (forall row, In row ts -> cut_code bins (N row) <> Some c) ->
      (observed = false ->
       codes !! c = Some (Some c) /\ rates !! c = Some nan /\ counts !! c = Some 0 /\
       In (SetColor c "red") chart /\
       In (Text (IntN (Z.of_nat c)) (FloatN nan) [Lit "n="; FmtInt 0]) chart) /\
      (observed = true -> ~ In (Some c) codes).
Proof.
  intros Hr.
  eexists _, (range_stats_frame observed ts), (map Some (shown_bins observed ts)),
    (bin_rates observed ts), (bin_counts observed ts), _.
  split; [exact (plot_success_by_range_run observed r dir h t ts extra Hr)|].
  cbv zeta. cbn [heap trace].
  split; [apply lookup_insert_eq|].
  do 4 (split; [reflexivity|]).
  split; [unfold success_by_range_events; simpl; auto|].
  intros c Hc Hnone.
  assert (Hempty : bin_rows c ts = []).
  { apply filter_none. intros row Hrow.
    destruct (in_bin c row) eqn:E; [|reflexivity].
    apply in_bin_spec in E. exfalso. exact (Hnone row Hrow E). }
  split.
  - intros ->.
    assert (Hrate : bin_rates false ts !! c = Some nan).
    { unfold bin_rates. rewrite shown_bins_all.
      do 5 (destruct c as [|c]; [cbn [map lookup list_lookup]; rewrite Hempty;
                                 reflexivity|]). lia. }
    assert (Hcount : bin_counts false ts !! c = Some 0).
    { unfold bin_counts. rewrite shown_bins_all.
      do 5 (destruct c as [|c]; [cbn [map lookup list_lookup]; rewrite Hempty;
                                 reflexivity|]). lia. }
    split.
    { rewrite shown_bins_all.
      do 5 (destruct c as [|c]; [reflexivity|]). lia. }
    split; [exact Hrate|]. split; [exact Hcount|].
    unfold success_by_range_events, bar_colors, bar_texts.
    rewrite !in_app_iff, !In_imap. split.
    + right. left. exists c, nan. split; [reflexivity|exact Hrate].
    + do 3 right. left. exists c, (nan, 0). split; [reflexivity|].
      apply lookup_zip_Some. auto.
  - intros -> Hin. apply in_map_iff in Hin as (c' & [= ->] & Hin).
    apply shown_bins_In in Hin as [_ [Hobs|(row & Hrow & Hbin)]]; [discriminate|].
    exact (Hnone row Hrow Hbin).
Qed.

Lemma empty_range_bar_witness :
  store_of two_rows !! 0%nat = Some (table two_rows []) /\
  exists st' chart,
    plot_success_by_range false 0%nat "plots" (mkState (store_of two_rows) []) =
      Ok (tt, st') /\
    trace st' = [] ++ chart /\
    In (SetColor 4 "red") chart.
Proof.
  assert (H : store_of two_rows !! 0%nat = Some (table two_rows [])) by reflexivity.
  split; [exact H|].
  destruct (empty_range_bar false 0%nat "plots" (store_of two_rows) [] two_rows [] H)
    as (st' & rs & codes & rates & counts & chart & Hrun & _ & Ht & _ & _ & _ & _ & Hbin).
  exists st', chart. split; [exact Hrun|]. split; [exact Ht|].
  destruct (Hbin 4%nat) as [Hfalse _]; [lia| |].
  - intros row [<-|[<-|[]]]; discriminate.
  - apply Hfalse. reflexivity.
Defined.

(** ** Derived columns and repeated runs *)

(** What an operation draws or prints depends on the trials of the table
    only: whatever derived columns the table already carries (such as the
    [range] left behind by an earlier call), the output is the same. *)
Theorem output_ignores_derived_columns (observed : bool) (r : ref) (dir : string)
    (h1 h2 : gmap nat DataFrame) (t1 t2 : list Event) (ts : list Trial)
    (extra1 extra2 : list (Label * Series)) :
  h1 !! r = Some (table ts extra1) ->
  h2 !! r = Some (table ts extra2) ->
  aligned ts extra1 ->
  aligned ts extra2 ->
  same_output (plot_success_vs_n observed r dir) (mkState h1 t1) (mkState h2 t2) /\
  same_output (plot_success_vs_phi_divisors observed r dir)
    (mkState h1 t1) (mkState h2 t2) /\
  same_output (plot_time_vs_n observed r dir) (mkState h1 t1) (mkState h2 t2) /\
  same_output (plot_success_by_range observed r dir) (mkState h1 t1) (mkState h2 t2) /\
  same_output (generate_summary_stats r) (mkState h1 t1) (mkState h2 t2).
Proof.
  intros H1 H2 Ha1 Ha2. unfold same_output. repeat split.
  - eexists _, _, _.
    split; [exact (plot_success_vs_n_run observed r dir h1 t1 ts extra1 H1)|].
    split; [exact (plot_success_vs_n_run observed r dir h2 t2 ts extra2 H2)|].
    split; reflexivity.
  - eexists _, _, _.
    split; [exact (plot_success_vs_phi_divisors_run observed r dir h1 t1 ts extra1 H1)|].
    split; [exact (plot_success_vs_phi_divisors_run observed r dir h2 t2 ts extra2 H2)|].
    split; reflexivity.
  - eexists _, _, _.
    split; [exact (plot_time_vs_n_run observed r dir h1 t1 ts extra1 H1)|].
    split; [exact (plot_time_vs_n_run observed r dir h2 t2 ts extra2 H2)|].
    split; reflexivity.
  - eexists _, _, _.
    split; [exact (plot_success_by_range_run observed r dir h1 t1 ts extra1 H1)|].
    split; [exact (plot_success_by_range_run observed r dir h2 t2 ts extra2 H2)|].
    split; reflexivity.
  - eexists _, _, _.
    split; [exact (generate_summary_stats_run r h1 t1 ts extra1 H1 Ha1)|].
    split; [exact (generate_summary_stats_run r h2 t2 ts extra2 H2 Ha2)|].
    split; reflexivity.
Qed.

Lemma output_ignores_derived_columns_witness :
  store_of sample !! 0%nat = Some (table sample []) /\
  ({[ 0%nat := ranged sample [] ]} : gmap nat DataFrame) !! 0%nat =
    Some (table sample [(L1 "range", range_column sample)]) /\
  aligned sample [] /\
  aligned sample [(L1 "range", range_column sample)] /\
  same_output (generate_summary_stats 0%nat)
    (mkState (store_of sample) []) (mkState {[ 0%nat := ranged sample [] ]} []).
Proof.
  assert (H1 : store_of sample !! 0%nat = Some (table sample [])) by reflexivity.
  assert (H2 : ({[ 0%nat := ranged sample [] ]} : gmap nat DataFrame) !! 0%nat =
               Some (table sample [(L1 "range", range_column sample)])) by reflexivity.
  assert (Ha1 : aligned sample []) by constructor.
  assert (Ha2 : aligned sample [(L1 "range", range_column sample)])
    by (repeat constructor).
  repeat (split; [assumption|]).
  exact (proj2 (proj2 (proj2 (proj2
    (output_ignores_derived_columns false 0%nat "plots" _ _ [] [] sample _ _
       H1 H2 Ha1 Ha2))))).
Defined.

Lemma assign_col_twice (l : Label) (s : Series) (cols : list (Label * Series)) :
  assign_col l s (assign_col l s cols) = assign_col l s cols.
Proof.
  assert (Hrefl : forall a, label_eqb a a = true)
    by (intros a; apply label_eqb_eq; reflexivity).
  induction cols as [|[l' s'] cols IH]; simpl.
  - rewrite Hrefl. reflexivity.
  - destruct (label_eqb l' l) eqn:E; simpl; rewrite E; [reflexivity|].
    rewrite IH. reflexivity.
Qed.

(** Calling [plot_success_by_range] a second time draws the same chart
    again and leaves the table as the first call left it: only the first
    call changes the table. *)
Theorem range_chart_twice (observed : bool) (r : ref) (dir : string)
    (h : gmap nat DataFrame) (t : list Event) (ts : list Trial)
    (extra : list (Label * Series)) :
  h !! r = Some (table ts extra) ->
  exists (st1 st2 : State) (after : DataFrame) (chart : list Event),
    plot_success_by_range observed r dir (mkState h t) = Ok (tt, st1) /\
    plot_success_by_range observed r dir st1 = Ok (tt, st2) /\
    heap st1 !! r = Some after /\
    heap st2 !! r = Some after /\
    trace st1 = t ++ chart /\
    trace st2 = (t ++ chart) ++ chart /\
    (forall l d, heap st1 !! l = Some d -> heap st2 !! l = Some d).
Proof.
  intros Hr.
  pose proof (plot_success_by_range_run observed r dir h t ts extra Hr) as Hrun1.
  cbv zeta in Hrun1.
  set (h1 := <[fresh (dom (<[r := ranged ts extra]> h)) := range_stats_frame observed ts]>
               (<[r := ranged ts extra]> h)) in *.
  assert (Hr1 : h1 !! r =
                Some (table ts (assign_col (L1 "range") (range_column ts) extra))).
  { apply lookup_other. apply lookup_insert_eq. }
  pose proof (plot_success_by_range_run observed r dir h1
                (t ++ success_by_range_events dir
                        (CatS labels (map Some (shown_bins observed ts)))
                        (bin_rates observed ts) (bin_counts observed ts))
                ts _ Hr1) as Hrun2.
  cbv zeta in Hrun2.
  assert (Hsame : ranged ts (assign_col (L1 "range") (range_column ts) extra) =
                  ranged ts extra).
  { unfold ranged. rewrite assign_col_twice. reflexivity. }
  rewrite Hsame in Hrun2.
  eexists _, _, (ranged ts extra), _.
  split; [exact Hrun1|]. split; [exact Hrun2|]. cbn [heap trace].
  split; [exact Hr1|].
  split; [apply lookup_other, lookup_insert_eq|].
  split; [reflexivity|]. split; [reflexivity|].
  intros l d Hl. apply lookup_other.
  rewrite insert_id; [exact Hl|exact Hr1].
Qed.

Lemma range_chart_twice_witness :
  store_of sample !! 0%nat = Some (table sample []) /\
  exists st1 st2,
    plot_success_by_range true 0%nat "plots" (mkState (store_of sample) []) =
      Ok (tt, st1) /\
    plot_success_by_range true 0%nat "plots" st1 = Ok (tt, st2) /\
    heap st2 !! 0%nat = heap st1 !! 0%nat.
Proof.
  assert (H : store_of sample !! 0%nat = Some (table sample [])) by reflexivity.
  split; [exact H|].
  destruct (range_chart_twice true 0%nat "plots" (store_of sample) [] sample [] H)
    as (st1 & st2 & after & chart & Hrun1 & Hrun2 & Ha1 & Ha2 & _).
  exists st1, st2. split; [exact Hrun1|]. split; [exact Hrun2|].
  etransitivity; [exact Ha2|symmetry; exact Ha1].
Defined.

(** ** The blocks of the summary *)

Lemma in_bin_interval (c : nat) (lo hi : Z) (t : Trial) :
  intervals !! c = Some (lo, hi) -> in_bin c t = in_interval lo hi t.
Proof.
  intros Hc. apply eq_true_iff_eq. rewrite in_bin_spec. unfold bin_of, in_interval.
  rewrite cut_code_interval, andb_true_iff, Z.ltb_lt, Z.leb_le. split.
  - intros (lo' & hi' & Hc' & Hx). rewrite Hc in Hc'. injection Hc' as <- <-. exact Hx.
  - intros Hx. exists lo, hi. auto.
Qed.

Lemma bin_rows_interval (c : nat) (lo hi : Z) (ts : list Trial) :
  intervals !! c = Some (lo, hi) -> bin_rows c ts = List.filter (in_interval lo hi) ts.
Proof.
  intros Hc. unfold bin_rows. apply List.filter_ext.
  intros t. apply in_bin_interval. exact Hc.
Qed.

Lemma range_line_labelled (l l' : string) (rows : list Trial) :
  List.filter (labelled l) (range_line l' rows) =
  if String.eqb l' l then range_line l' rows else [].
Proof.
  destruct rows; simpl; [destruct (String.eqb l' l); reflexivity|].
  destruct (String.eqb l' l); reflexivity.
Qed.

Lemma example_line_not_labelled (l : string) (n : Z) (rows : list Trial) :
  List.filter (labelled l) (example_line n rows) = [].
Proof. destruct rows; reflexivity. Qed.

Lemma overall_not_labelled (l : string) (ts : list Trial) :
  List.filter (labelled l) (overall_lines ts) = [].
Proof. reflexivity. Qed.

Lemma summary_labelled (c : nat) (label : string) (ts : list Trial) :
  labels !! c = Some label ->
  List.filter (labelled label) (summary_events ts) = range_line label (bin_rows c ts).
Proof.
  intros Hc. unfold summary_events. rewrite range_lines_unfold.
  rewrite !List.filter_app, overall_not_labelled, !range_line_labelled,
    !example_line_not_labelled.
  do 5 (destruct c as [|c]; [injection Hc as <-; cbn [String.eqb Ascii.eqb Bool.eqb];
                             cbn [app]; rewrite ?app_nil_r; reflexivity|]).
  discriminate Hc.
Qed.

(** The range breakdown of the summary.  The line labelled with the [c]-th
    label reports the rows whose [N] lies in the [c]-th interval (so the
    label "100-300" stands for (0, 300]): successes, rows and rate of
    exactly these rows, and no line when there is none.  The row count it
    prints is the count on the bar of that range in the chart of
    [plot_success_by_range]. *)
Theorem summary_range_breakdown (observed : bool) (r : ref) (dir : string)
    (h : gmap nat DataFrame) (t : list Event) (ts : list Trial)
    (extra : list (Label * Series)) :
  h !! r = Some (table ts extra) ->
  aligned ts extra ->
  exists (st' st2 : State) (printed : list Event) (range_stats : DataFrame)
         (codes : list (option nat)) (counts : list Z),
    generate_summary_stats r (mkState h t) = Ok (tt, st') /\
    trace st' = t ++ printed /\
    plot_success_by_range observed r dir (mkState h t) = Ok (tt, st2) /\
    heap st2 !! fresh (dom (<[r := ranged ts extra]> h)) = Some range_stats /\
    getitem range_stats "range" = Ok (CatS labels codes) /\
    getitem range_stats "count" = Ok (IntS counts) /\
    forall c label lo hi,
      labels !! c = Some label ->
      intervals !! c = Some (lo, hi) ->
      List.filter (labelled label) printed =
        match List.filter (in_interval lo hi) ts with
        | [] => []
        | row :: rows =>
            [ Print [ Lit "  N ∈ "; Lit label; Lit ": ";
                      FmtInt (Z.of_nat (length (List.filter success (row :: rows))));
                      Lit "/"; FmtInt (Z.of_nat (length (row :: rows))); Lit " (";
                      FmtFloat 0
                        (fmean (map float_of_bool (map success (row :: rows)))
                         * 100)%float;
                      Lit "%)" ] ]
        end /\
      forall i, codes !! i = Some (Some c) ->
                counts !! i = Some (Z.of_nat (length (List.filter (in_interval lo hi) ts))).
Proof.
  intros Hr Hext.
  eexists _, _, (summary_events ts), (range_stats_frame observed ts),
    (map Some (shown_bins observed ts)), (bin_counts observed ts).
  split; [exact (generate_summary_stats_run r h t ts extra Hr Hext)|].
  split; [reflexivity|].
  split; [exact (plot_success_by_range_run observed r dir h t ts extra Hr)|].
  cbv zeta. cbn [heap].
  split; [apply lookup_insert_eq|].
  do 2 (split; [reflexivity|]).
  intros c label lo hi Hlabel Hint.
  rewrite (summary_labelled c label ts Hlabel), (bin_rows_interval c lo hi ts Hint).
  split.
  - destruct (List.filter (in_interval lo hi) ts); reflexivity.
  - intros i Hi. rewrite lookup_map in Hi. unfold bin_counts. rewrite lookup_map.
    destruct (shown_bins observed ts !! i) as [c'|]; [|discriminate Hi].
    injection Hi as ->. cbn [fmap option_fmap option_map].
    rewrite (bin_rows_interval c lo hi ts Hint). reflexivity.
Qed.

Lemma summary_range_breakdown_witness :
  store_of sample !! 0%nat = Some (table sample []) /\
  aligned sample [] /\
  exists st' printed,
    generate_summary_stats 0%nat (mkState (store_of sample) []) = Ok (tt, st') /\
    trace st' = [] ++ printed /\
    List.filter (labelled "100-300") printed =
      [ Print [ Lit "  N ∈ "; Lit "100-300"; Lit ": "; FmtInt 1; Lit "/"; FmtInt 1;
                Lit " ("; FmtFloat 0 100%float; Lit "%)" ] ].
Proof.
  assert (H : store_of sample !! 0%nat = Some (table sample [])) by reflexivity.
  assert (Ha : aligned sample []) by constructor.
  split; [exact H|]. split; [exact Ha|].
  destruct (summary_range_breakdown false 0%nat "plots" (store_of sample) [] sample []
              H Ha)
    as (st' & st2 & printed & rs & codes & counts & Hrun & Ht & _ & _ & _ & _ & Hlines).
  exists st', printed. split; [exact Hrun|]. split; [exact Ht|].
  destruct (Hlines 0%nat "100-300" 0 300 eq_refl eq_refl) as [Hl _].
  exact Hl.
Defined.

(** The overall block and the average time of the summary: the number of
    rows, the number of rows with [success], and their ratio in percent;
    the average time is the mean of [time_ms] over the successful rows
    divided by 1000, so the times recorded for failed trials never enter
    it. *)
Theorem summary_overall_block (r : ref) (h : gmap nat DataFrame) (t : list Event)
    (ts : list Trial) (extra : list (Label * Series)) :
  h !! r = Some (table ts extra) ->
  aligned ts extra ->
  exists (st' : State) (rest : list Event) (trials successes : Z) (average : float),
    generate_summary_stats r (mkState h t) = Ok (tt, st') /\
    trace st' =
      t ++ [ Print [Lit ("\n" ++ str_repeat "=" 60)];
             Print [Lit "SUMMARY STATISTICS FOR PAPER"];
             Print [Lit (str_repeat "=" 60)];
             Print [Lit "\nOverall:"];
             Print [Lit "  Trials: "; FmtInt trials];
             Print [Lit "  Successes: "; FmtInt successes];
             Print [Lit "  Success rate: ";
                    FmtFloat 1 (float_of_Z successes / float_of_nat (length ts) * 100)%float;
                    Lit "%"];
             Print [Lit "\nSuccess rate by range:"] ] ++ rest /\
    trials = Z.of_nat (length ts) /\
    successes = Z.of_nat (length (List.filter success ts)) /\
    0 <= successes <= trials /\
    In (Print [Lit "\nAverage time to factor (successful): "; FmtFloat 1 average; Lit "s"])
       rest /\
    average = (fmean (dropna (map time_ms (List.filter success ts))) / 1000)%float /\
    forall ts2 extra2 h2 t2,
      h2 !! r = Some (table ts2 extra2) ->
      aligned ts2 extra2 ->
      List.filter success ts2 = List.filter success ts ->
      exists st2 printed2,
        generate_summary_stats r (mkState h2 t2) = Ok (tt, st2) /\
        trace st2 = t2 ++ printed2 /\
        In (Print [Lit "\nAverage time to factor (successful): "; FmtFloat 1 average;
                   Lit "s"]) printed2.
Proof.
  intros Hr Hext.
  eexists _, _, _, _, _.
  split; [exact (generate_summary_stats_run r h t ts extra Hr Hext)|].
  split.
  { cbn [trace]. unfold summary_events, overall_lines. cbv zeta. reflexivity. }
  split; [reflexivity|]. split; [reflexivity|].
  split.
  { split; [lia|]. apply Nat2Z.inj_le, List.filter_length_le. }
  split.
  { rewrite !in_app_iff. right. left. left. reflexivity. }
  split; [reflexivity|].
  intros ts2 extra2 h2 t2 Hr2 Hext2 Hsame.
  eexists _, (summary_events ts2).
  split; [exact (generate_summary_stats_run r h2 t2 ts2 extra2 Hr2 Hext2)|].
  split; [reflexivity|].
  unfold summary_events, time_line, successful. rewrite Hsame.
  rewrite !in_app_iff. do 3 right. left. left. reflexivity.
Qed.

Lemma summary_overall_block_witness :
  store_of sample !! 0%nat = Some (table sample []) /\
  aligned sample [] /\
  exists st' successes,
    generate_summary_stats 0%nat (mkState (store_of sample) []) = Ok (tt, st') /\
    successes = 4.
Proof.
  assert (H : store_of sample !! 0%nat = Some (table sample [])) by reflexivity.
  assert (Ha : aligned sample []) by constructor.
  split; [exact H|]. split; [exact Ha|].
  destruct (summary_overall_block 0%nat (store_of sample) [] sample [] H Ha)
    as (st' & rest & trials & successes & average & Hrun & _ & _ & Hs & _).
  exists st', successes. split; [exact Hrun|]. rewrite Hs. reflexivity.
Defined.

(** ** The report of [main] *)












(** ** The bars of the range chart *)

(** The bar chart has one bar per range that [groupby] keeps, in the order
    of the labels: all five ranges when unobserved categories are kept
    ([observed = False]), the ranges that hold at least one row otherwise;
    never more than five. *)
Theorem range_bars_in_label_order (observed : bool) (r : ref) (dir : string)
    (h : gmap nat DataFrame) (t : list Event) (ts : list Trial)
    (extra : list (Label * Series)) :
  h !! r = Some (table ts extra) ->
  exists (st' : State) (chart : list Event) (shown : list nat) (rates : list float),
    plot_success_by_range observed r dir (mkState h t) = Ok (tt, st') /\
    trace st' = t ++ chart /\
    In (Bar (CatS labels (map Some shown)) (FloatS rates)) chart /\
    length rates = length shown /\
    (length shown <= 5)%nat /\
    StronglySorted lt shown /\
    (forall c, In c shown -> exists label, labels !! c = Some label) /\
    (observed = false -> shown = [0; 1; 2; 3; 4]%nat) /\
    (observed = true ->
     forall c, In c shown <->
               exists row, In row ts /\ cut_code bins (N row) = Some c).
Proof.
  intros Hr.
  eexists _, _, (shown_bins observed ts), (bin_rates observed ts).
  split; [exact (plot_success_by_range_run observed r dir h t ts extra Hr)|].
  cbv zeta. cbn [trace].
  split; [reflexivity|].
  split; [unfold success_by_range_events; simpl; auto|].
  split; [apply length_map|].
  split.
  { unfold shown_bins. etransitivity; [apply List.filter_length_le|].
    rewrite length_seq. reflexivity. }
  split; [unfold shown_bins; apply filter_sorted, seq_sorted|].
  split.
  { intros c Hc. apply shown_bins_In in Hc as [Hc _].
    apply lookup_lt_is_Some_2. exact Hc. }
  split; [intros ->; reflexivity|].
  intros -> c. rewrite shown_bins_In. split.
  - intros [_ [Hf|Hrow]]; [discriminate|exact Hrow].
  - intros (row & Hrow & Hbin). split.
    + apply cut_code_interval in Hbin as (lo & hi & Hc & _).
      apply lookup_lt_Some in Hc. exact Hc.
    + right. exists row. auto.
Qed.

Lemma range_bars_in_label_order_witness :
  store_of sample !! 0%nat = Some (table sample []) /\
  exists st' shown,
    plot_success_by_range true 0%nat "plots" (mkState (store_of sample) []) =
      Ok (tt, st') /\
    (In 0%nat shown /\ In 1%nat shown /\ In 2%nat shown /\ ~ In 3%nat shown).
Proof.
  assert (H : store_of sample !! 0%nat = Some (table sample [])) by reflexivity.
  split; [exact H|].
  destruct (range_bars_in_label_order true 0%nat "plots" (store_of sample) [] sample [] H)
    as (st' & chart & shown & rates & Hrun & _ & _ & _ & _ & _ & _ & _ & Hobs).
  exists st', shown. split; [exact Hrun|].
  specialize (Hobs eq_refl).
  repeat split.
  - apply Hobs. eexists. split; [do 6 right; left; reflexivity|reflexivity].
  - apply Hobs. eexists. split; [left; reflexivity|reflexivity].
  - apply Hobs. eexists. split; [do 3 right; left; reflexivity|reflexivity].
  - intros H3. apply Hobs in H3 as (row & Hin & Hbin).
    simpl in Hin. repeat (destruct Hin as [<-|Hin]; [discriminate Hbin|]). exact Hin.
Defined.
